(** * SelectCite background service worker: citation-resolution pipeline

    Shallow embedding of [src/js/background.js] (the first, deep-extraction
    copy of the [selectcite] object, lines 1-282, and the context-menu
    listener).  JavaScript strings are lists of UTF-16 code units, written as
    [Z]; the built-ins the worker relies on ([String.prototype.trim],
    [replace], [encodeURIComponent], the regular expressions, property reads
    on parsed JSON) are written out as functions on those lists.  The
    browser collaborators ([fetch], [chrome.tabs.create],
    [chrome.notifications.create]) are an environment that answers each call,
    and the worker threads a trace of the calls it made. *)

From Stdlib Require Import ZArith List String Ascii Bool Lia.
Import ListNotations.
Open Scope Z_scope.

(** ** JavaScript strings *)

Definition jsstr := list Z.

(** ASCII literal to code units. *)
Fixpoint js (s : string) : jsstr :=
  match s with
  | EmptyString => []
  | String a r => Z.of_nat (nat_of_ascii a) :: js r
  end.

Definition quote : jsstr := [34].

Fixpoint strip_prefix (p s : jsstr) : option jsstr :=
  match p, s with
  | [], _ => Some s
  | c :: p', d :: s' => if Z.eqb c d then strip_prefix p' s' else None
  | _ :: _, [] => None
  end.

Fixpoint jsstr_eqb (s t : jsstr) : bool :=
  match s, t with
  | [], [] => true
  | c :: s', d :: t' => Z.eqb c d && jsstr_eqb s' t'
  | _, _ => false
  end.

(** WhiteSpace and LineTerminator code units: the set matched by [\s]
    and removed by [trim]. *)
Definition is_ws (c : Z) : bool :=
  (9 <=? c) && (c <=? 13) || Z.eqb c 32 || Z.eqb c 160 || Z.eqb c 5760
  || (8192 <=? c) && (c <=? 8202) || Z.eqb c 8232 || Z.eqb c 8233
  || Z.eqb c 8239 || Z.eqb c 8287 || Z.eqb c 12288 || Z.eqb c 65279.

(** LineTerminator code units: those [.] does not match. *)
Definition is_line_term (c : Z) : bool :=
  Z.eqb c 10 || Z.eqb c 13 || Z.eqb c 8232 || Z.eqb c 8233.

Fixpoint trim_start (s : jsstr) : jsstr :=
  match s with
  | c :: r => if is_ws c then trim_start r else s
  | [] => []
  end.

(** [String.prototype.trim]. *)
Definition trim (s : jsstr) : jsstr := rev (trim_start (rev (trim_start s))).

(** [s.replace(/\s+/g, rep)]: every maximal run of white space becomes [rep].
    [in_run] records that the previous code unit was white space. *)
Fixpoint replace_ws_runs (rep : jsstr) (in_run : bool) (s : jsstr) : jsstr :=
  match s with
  | [] => []
  | c :: r =>
      if is_ws c then
        if in_run then replace_ws_runs rep true r
        else rep ++ replace_ws_runs rep true r
      else c :: replace_ws_runs rep false r
  end.

(** [keyword.trim().replace(/\s+/g, '+')], background.js lines 17 and 53. *)
Definition clean_keyword (keyword : jsstr) : jsstr :=
  replace_ws_runs (js "+") false (trim keyword).

(** [s.replace(pat, '')] with a string pattern: only the first occurrence
    is removed. *)
Fixpoint replace_first_empty (pat s : jsstr) : jsstr :=
  match strip_prefix pat s with
  | Some rest => rest
  | None =>
      match s with
      | [] => []
      | c :: r => c :: replace_first_empty pat r
      end
  end.

(** ** [encodeURIComponent] and [decodeURIComponent] (ECMA-262 Encode and
    Decode with the component sets) *)

Definition in_range (lo hi c : Z) : bool := (lo <=? c) && (c <=? hi).

(** uriAlpha, DecimalDigit and uriMark [- _ . ! ~ * ' ( )]. *)
Definition uri_unreserved (c : Z) : bool :=
  in_range 65 90 c || in_range 97 122 c || in_range 48 57 c
  || Z.eqb c 45 || Z.eqb c 95 || Z.eqb c 46 || Z.eqb c 33 || Z.eqb c 126
  || Z.eqb c 42 || Z.eqb c 39 || Z.eqb c 40 || Z.eqb c 41.

Definition is_high_surrogate (c : Z) : bool := in_range 55296 56319 c.
Definition is_low_surrogate (c : Z) : bool := in_range 56320 57343 c.

(** Upper-case hexadecimal digit of a value in 0..15. *)
Definition hex_digit (d : Z) : Z := if d <? 10 then 48 + d else 55 + d.

Definition hex_val (c : Z) : option Z :=
  if in_range 48 57 c then Some (c - 48)
  else if in_range 65 70 c then Some (c - 55)
  else if in_range 97 102 c then Some (c - 87)
  else None.

(** [%XY] for one octet. *)
Definition pct (b : Z) : jsstr := [37; hex_digit (b / 16); hex_digit (b mod 16)].

(** UTF-8 octets of a code point. *)
Definition utf8_octets (cp : Z) : list Z :=
  if cp <? 128 then [cp]
  else if cp <? 2048 then [192 + cp / 64; 128 + cp mod 64]
  else if cp <? 65536 then
    [224 + cp / 4096; 128 + (cp / 64) mod 64; 128 + cp mod 64]
  else [240 + cp / 262144; 128 + (cp / 4096) mod 64;
        128 + (cp / 64) mod 64; 128 + cp mod 64].

Definition pct_octets (cp : Z) : jsstr := flat_map pct (utf8_octets cp).

Definition pair_code_point (hi lo : Z) : Z :=
  65536 + (hi - 55296) * 1024 + (lo - 56320).

(** [encodeURIComponent]; [None] is the URIError thrown on an unpaired
    surrogate. *)
Fixpoint encodeURIComponent (s : jsstr) : option jsstr :=
  match s with
  | [] => Some []
  | c :: r =>
      if uri_unreserved c then option_map (cons c) (encodeURIComponent r)
      else if is_high_surrogate c then
        match r with
        | d :: r' =>
            if is_low_surrogate d then
              option_map (app (pct_octets (pair_code_point c d)))
                (encodeURIComponent r')
            else None
        | [] => None
        end
      else if is_low_surrogate c then None
      else option_map (app (pct_octets c)) (encodeURIComponent r)
  end.

(** UTF-16 code units of a code point. *)
Definition utf16_units (cp : Z) : jsstr :=
  if cp <? 65536 then [cp]
  else [55296 + (cp - 65536) / 1024; 56320 + (cp - 65536) mod 1024].

Definition hex_byte (h1 h2 : Z) : option Z :=
  match hex_val h1, hex_val h2 with
  | Some a, Some b => Some (16 * a + b)
  | _, _ => None
  end.

(** A continuation octet [%XY] with [XY] in 80..BF; its low six bits. *)
Definition cont_bits (p h1 h2 : Z) : option Z :=
  if Z.eqb p 37 then
    match hex_byte h1 h2 with
    | Some b => if in_range 128 191 b then Some (b - 128) else None
    | None => None
    end
  else None.

Definition opt_bind {A B} (o : option A) (f : A -> option B) : option B :=
  match o with Some a => f a | None => None end.

Notation "x <-? o ;; k" := (opt_bind o (fun x => k))
  (at level 61, o at next level, right associativity).

(** [decodeURIComponent]; [None] is the URIError.  A decoded sequence must
    be a shortest-form UTF-8 encoding of a scalar value. *)
Fixpoint decodeURIComponent (s : jsstr) : option jsstr :=
  match s with
  | [] => Some []
  | c :: r =>
      if negb (Z.eqb c 37) then option_map (cons c) (decodeURIComponent r)
      else
        match r with
        | h1 :: h2 :: r1 =>
            b <-? hex_byte h1 h2 ;;
            if b <? 128 then option_map (cons b) (decodeURIComponent r1)
            else if in_range 192 223 b then
              match r1 with
              | p2 :: a2 :: b2 :: r2 =>
                  x2 <-? cont_bits p2 a2 b2 ;;
                  let cp := (b - 192) * 64 + x2 in
                  if cp <? 128 then None
                  else option_map (app (utf16_units cp)) (decodeURIComponent r2)
              | _ => None
              end
            else if in_range 224 239 b then
              match r1 with
              | p2 :: a2 :: b2 :: p3 :: a3 :: b3 :: r3 =>
                  x2 <-? cont_bits p2 a2 b2 ;;
                  x3 <-? cont_bits p3 a3 b3 ;;
                  let cp := (b - 224) * 4096 + x2 * 64 + x3 in
                  if (cp <? 2048) || in_range 55296 57343 cp then None
                  else option_map (app (utf16_units cp)) (decodeURIComponent r3)
              | _ => None
              end
            else if in_range 240 247 b then
              match r1 with
              | p2 :: a2 :: b2 :: p3 :: a3 :: b3 :: p4 :: a4 :: b4 :: r4 =>
                  x2 <-? cont_bits p2 a2 b2 ;;
                  x3 <-? cont_bits p3 a3 b3 ;;
                  x4 <-? cont_bits p4 a4 b4 ;;
                  let cp := (b - 240) * 262144 + x2 * 4096 + x3 * 64 + x4 in
                  if (cp <? 65536) || (1114111 <? cp) then None
                  else option_map (app (utf16_units cp)) (decodeURIComponent r4)
              | _ => None
              end
            else None
        | _ => None
        end
  end.

(** ** The regular expressions of [extractPaperIdFromResponse] and
    [getBibTexFromPaperId]

    Each pattern is an anchored matcher ([.._at]) returning capture group 1,
    searched at every start position from the left ([first_match], the
    semantics of [String.prototype.match] without the [g] flag).  In every
    pattern a greedy run ([\s*], [[^Q]*], [[^:]+], [[^>]*]; Q stands for the
    double quote in these comments) is followed by a
    code unit the run cannot contain, so backtracking into the run never
    produces another match and the greedy run is the maximal one. *)

Fixpoint first_match (at_ : jsstr -> option jsstr) (s : jsstr) : option jsstr :=
  match at_ s with
  | Some g => Some g
  | None =>
      match s with
      | [] => None
      | _ :: r => first_match at_ r
      end
  end.

Fixpoint skip_ws (s : jsstr) : jsstr :=
  match s with
  | c :: r => if is_ws c then skip_ws r else s
  | [] => []
  end.

(** Lazy [.*?] followed by the literal [close]: the shortest run of
    non-line-terminators after which [close] occurs. *)
Fixpoint lazy_until (close s : jsstr) : option jsstr :=
  match strip_prefix close s with
  | Some _ => Some []
  | None =>
      match s with
      | [] => None
      | c :: r =>
          if is_line_term c then None
          else option_map (cons c) (lazy_until close r)
      end
  end.

(** Maximal run of code units different from [stop], and the rest. *)
Fixpoint span_not (stop : Z) (s : jsstr) : jsstr * jsstr :=
  match s with
  | c :: r =>
      if Z.eqb c stop then ([], s)
      else let (run, rest) := span_not stop r in (c :: run, rest)
  | [] => ([], [])
  end.

(** [/window\.googleSearchResponse\s*=\s*({.*?});/] *)
Definition pat0_at (s : jsstr) : option jsstr :=
  s1 <-? strip_prefix (js "window.googleSearchResponse") s ;;
  s2 <-? strip_prefix (js "=") (skip_ws s1) ;;
  s3 <-? strip_prefix (js "{") (skip_ws s2) ;;
  t <-? lazy_until (js "};") s3 ;;
  Some (js "{" ++ t ++ js "}").

(** [/QrQ:\s*\[({.*?})\]/] *)
Definition pat1_at (s : jsstr) : option jsstr :=
  s1 <-? strip_prefix (quote ++ js "r" ++ quote ++ js ":") s ;;
  s2 <-? strip_prefix (js "[{") (skip_ws s1) ;;
  t <-? lazy_until (js "}]") s2 ;;
  Some (js "{" ++ t ++ js "}").

(** [/data-clk=Q(RUN)Q/] with [RUN] the greedy class [[^Q]*] *)
Definition pat2_at (s : jsstr) : option jsstr :=
  s1 <-? strip_prefix (js "data-clk=" ++ quote) s ;;
  let (run, rest) := span_not 34 s1 in
  tail_ <-? strip_prefix quote rest ;;
  Some run.

(** [([^:]+):scholar\.google\.com] after a fixed prefix. *)
Definition info_id_after (prefix s : jsstr) : option jsstr :=
  s1 <-? strip_prefix prefix s ;;
  let (run, rest) := span_not 58 s1 in
  match run with
  | [] => None
  | _ :: _ =>
      tail_ <-? strip_prefix (js ":scholar.google.com") rest ;;
      Some run
  end.

(** [/data-href=Q\/scholar\?q=info:([^:]+):scholar\.google\.com/] *)
Definition pat3_at (s : jsstr) : option jsstr :=
  info_id_after (js "data-href=" ++ quote ++ js "/scholar?q=info:") s.

(** [/\/scholar\?q=info:([^:]+):scholar\.google\.com/], the final scan. *)
Definition cite_at (s : jsstr) : option jsstr :=
  info_id_after (js "/scholar?q=info:") s.

(** [/href=Q(RUN)Q[^>]*>BibTeX<\/a>/] with [RUN] the greedy class [[^Q]*] *)
Definition anchor_at (s : jsstr) : option jsstr :=
  s1 <-? strip_prefix (js "href=" ++ quote) s ;;
  let (run, rest) := span_not 34 s1 in
  s2 <-? strip_prefix quote rest ;;
  let (_, s3) := span_not 62 s2 in
  tail_ <-? strip_prefix (js ">BibTeX</a>") s3 ;;
  Some run.

Definition bibtex_anchor_match (citeText : jsstr) : option jsstr :=
  first_match anchor_at citeText.

Definition cite_link_match (responseText : jsstr) : option jsstr :=
  first_match cite_at responseText.

(** ** JavaScript values

    The values the worker reads: the results of [JSON.parse] and
    [undefined].  A number [JNum m e] stands for [m * 10^e]; JSON numbers
    are decimal literals.  (Rounding to binary64 is not modelled: it could
    only matter through underflow of literals such as [1e-400].) *)

#[local] Set Warnings "-register-all".
Inductive jv :=
| JUndef
| JNull
| JBool (b : bool)
| JNum (m e : Z)
| JStr (s : jsstr)
| JArr (l : list jv)
| JObj (kvs : list (jsstr * jv)).

(** Completion of an evaluation: a value, or a thrown exception. *)
Inductive res (A : Type) :=
| Ret (a : A)
| Exc.
Arguments Ret {A} a.
Arguments Exc {A}.

Definition res_bind {A B} (r : res A) (k : A -> res B) : res B :=
  match r with Ret a => k a | Exc => Exc end.

Notation "x <-! r ;; k" := (res_bind r (fun x => k))
  (at level 61, r at next level, right associativity).

Definition is_empty (s : jsstr) : bool :=
  match s with [] => true | _ => false end.

(** ToBoolean. *)
Definition truthy (v : jv) : bool :=
  match v with
  | JUndef | JNull => false
  | JBool b => b
  | JNum m _ => negb (Z.eqb m 0)
  | JStr s => negb (is_empty s)
  | JArr _ | JObj _ => true
  end.

(** Own property of a parsed object: [JSON.parse] keeps the last of
    duplicate keys. *)
Definition obj_lookup (kvs : list (jsstr * jv)) (name : jsstr) : jv :=
  fold_left (fun acc kv => if jsstr_eqb (fst kv) name then snd kv else acc)
    kvs JUndef.

(** [v.name] for a property name that is not an array index (the names
    [r], [l], [f], [u], [i] and [length] of the worker); reading a property
    of [undefined] or [null] throws a TypeError. *)
Definition get_prop (v : jv) (name : jsstr) : res jv :=
  match v with
  | JUndef | JNull => Exc
  | JBool _ | JNum _ _ => Ret JUndef
  | JStr s =>
      if jsstr_eqb name (js "length") then Ret (JNum (Z.of_nat (List.length s)) 0)
      else Ret JUndef
  | JArr l =>
      if jsstr_eqb name (js "length") then Ret (JNum (Z.of_nat (List.length l)) 0)
      else Ret JUndef
  | JObj kvs => Ret (obj_lookup kvs name)
  end.

(** [v[0]]. *)
Definition get_first (v : jv) : res jv :=
  match v with
  | JUndef | JNull => Exc
  | JBool _ | JNum _ _ => Ret JUndef
  | JStr s => Ret (match s with c :: _ => JStr [c] | [] => JUndef end)
  | JArr l => Ret (match l with x :: _ => x | [] => JUndef end)
  | JObj kvs => Ret (obj_lookup kvs (js "0"))
  end.

(** [v === "text"]. *)
Definition strict_eq_str (v : jv) (text : jsstr) : bool :=
  match v with JStr s => jsstr_eqb s text | _ => false end.

Definition is_digit (c : Z) : bool := in_range 48 57 c.

Fixpoint span_digits (s : jsstr) : jsstr * jsstr :=
  match s with
  | c :: r =>
      if is_digit c then let (d, rest) := span_digits r in (c :: d, rest)
      else ([], s)
  | [] => ([], [])
  end.

Definition all_in (p : Z -> bool) (s : jsstr) : bool := forallb p s.
Definition some_nonzero_digit (s : jsstr) : bool :=
  existsb (fun c => negb (Z.eqb c 48)) s.

(** Exponent part [e|E [+|-] digits], or nothing. *)
Definition exponent_ok (s : jsstr) : bool :=
  match s with
  | [] => true
  | c :: r =>
      (Z.eqb c 101 || Z.eqb c 69) &&
      (let r' := match r with
                 | d :: r'' => if Z.eqb d 43 || Z.eqb d 45 then r'' else r
                 | [] => r end in
       negb (is_empty r') && all_in is_digit r')
  end.

(** [ToNumber(s) > 0] for a string (StringToNumber): decimal literals with
    sign, fraction and exponent, [Infinity], and [0x], [0o], [0b]
    literals; anything else is NaN. *)
Definition str_num_pos (s : jsstr) : bool :=
  let t := trim s in
  if jsstr_eqb t (js "Infinity") || jsstr_eqb t (js "+Infinity") then true
  else
    match t with
    | 48 :: x :: ds =>
        if Z.eqb x 120 || Z.eqb x 88 then
          negb (is_empty ds) && all_in (fun c => match hex_val c with Some _ => true | None => false end) ds
          && some_nonzero_digit ds
        else if Z.eqb x 111 || Z.eqb x 79 then
          negb (is_empty ds) && all_in (in_range 48 55) ds && some_nonzero_digit ds
        else if Z.eqb x 98 || Z.eqb x 66 then
          negb (is_empty ds) && all_in (in_range 48 49) ds && some_nonzero_digit ds
        else
          let (ip, r1) := span_digits t in
          let (fp, r2) := match r1 with
                          | d :: r => if Z.eqb d 46 then span_digits r else ([], r1)
                          | [] => ([], []) end in
          exponent_ok r2 && some_nonzero_digit (ip ++ fp)
    | _ =>
        let (neg, u) := match t with
                        | c :: r => if Z.eqb c 45 then (true, r)
                                    else if Z.eqb c 43 then (false, r) else (false, t)
                        | [] => (false, []) end in
        let (ip, r1) := span_digits u in
        let (fp, r2) := match r1 with
                        | d :: r => if Z.eqb d 46 then span_digits r else ([], r1)
                        | [] => ([], []) end in
        negb neg && negb (is_empty (ip ++ fp)) && exponent_ok r2
        && some_nonzero_digit (ip ++ fp)
    end.

(** [v > 0] (ToPrimitive, then ToNumber): an array converts through
    [join], so only a one-element array can be positive. *)
Fixpoint gt_zero (v : jv) : bool :=
  match v with
  | JUndef | JNull => false
  | JBool b => b
  | JNum m _ => 0 <? m
  | JStr s => str_num_pos s
  | JArr [x] =>
      match x with
      | JBool _ => false
      | _ => gt_zero x
      end
  | JArr _ => false
  | JObj _ => false
  end.

(** ** [JSON.parse]

    The pipeline is stated for any parser ([JSON_parse] below is a section
    variable); this function is the grammar of ECMA-404 used to evaluate the
    pipeline on concrete bodies.  [None] is the SyntaxError. *)

Definition is_jws (c : Z) : bool :=
  Z.eqb c 9 || Z.eqb c 10 || Z.eqb c 13 || Z.eqb c 32.

Fixpoint skip_jws (s : jsstr) : jsstr :=
  match s with
  | c :: r => if is_jws c then skip_jws r else s
  | [] => []
  end.

Definition hex4 (a b c d : Z) : option Z :=
  match hex_val a, hex_val b, hex_val c, hex_val d with
  | Some x, Some y, Some z, Some w => Some (4096 * x + 256 * y + 16 * z + w)
  | _, _, _, _ => None
  end.

Definition simple_escape (c : Z) : option Z :=
  if Z.eqb c 34 then Some 34 else if Z.eqb c 92 then Some 92
  else if Z.eqb c 47 then Some 47 else if Z.eqb c 98 then Some 8
  else if Z.eqb c 102 then Some 12 else if Z.eqb c 110 then Some 10
  else if Z.eqb c 114 then Some 13 else if Z.eqb c 116 then Some 9
  else None.

(** Characters of a string literal after its opening quote, and the text
    after the closing quote. *)
Fixpoint json_string_body (s : jsstr) : option (jsstr * jsstr) :=
  match s with
  | [] => None
  | c :: r =>
      if Z.eqb c 34 then Some ([], r)
      else if c <? 32 then None
      else if Z.eqb c 92 then
        match r with
        | e :: r1 =>
            if Z.eqb e 117 then
              match r1 with
              | a :: b :: c' :: d :: r2 =>
                  u <-? hex4 a b c' d ;;
                  option_map (fun p => (u :: fst p, snd p)) (json_string_body r2)
              | _ => None
              end
            else
              u <-? simple_escape e ;;
              option_map (fun p => (u :: fst p, snd p)) (json_string_body r1)
        | [] => None
        end
      else option_map (fun p => (c :: fst p, snd p)) (json_string_body r)
  end.

Definition digits_value (ds : jsstr) : Z :=
  fold_left (fun acc d => 10 * acc + (d - 48)) ds 0.

(** [-? (0 | [1-9] digits) (. digits)? ([eE] [+-]? digits)?] *)
Definition json_number (s : jsstr) : option (jv * jsstr) :=
  let (neg, s1) := match s with
                   | c :: r => if Z.eqb c 45 then (true, r) else (false, s)
                   | [] => (false, []) end in
  let (ip, s2) := span_digits s1 in
  match ip with
  | [] => None
  | d0 :: drest =>
      if Z.eqb d0 48 && negb (is_empty drest) then None
      else
        let fr := match s2 with
                  | c :: r =>
                      if Z.eqb c 46 then
                        let (fp, s3) := span_digits r in
                        if is_empty fp then None else Some (fp, s3)
                      else Some ([], s2)
                  | [] => Some ([], []) end in
        p <-? fr ;;
        let (fp, s3) := p in
        let ex := match s3 with
                  | c :: r =>
                      if Z.eqb c 101 || Z.eqb c 69 then
                        let (eneg, r1) := match r with
                                          | d :: r' => if Z.eqb d 45 then (true, r')
                                                       else if Z.eqb d 43 then (false, r')
                                                       else (false, r)
                                          | [] => (false, []) end in
                        let (ed, s4) := span_digits r1 in
                        if is_empty ed then None
                        else Some ((if eneg then - digits_value ed else digits_value ed), s4)
                      else Some (0, s3)
                  | [] => Some (0, []) end in
        q <-? ex ;;
        let m := digits_value (ip ++ fp) in
        Some (JNum (if neg then - m else m) (fst q - Z.of_nat (List.length fp)), snd q)
  end.

(** One value, with [fuel] bounding the nesting depth. *)
Fixpoint json_value (fuel : nat) (s : jsstr) : option (jv * jsstr) :=
  match fuel with
  | O => None
  | S f =>
      match skip_jws s with
      | [] => None
      | c :: r =>
          if Z.eqb c 123 then
            match skip_jws r with
            | d :: r1 =>
                if Z.eqb d 125 then Some (JObj [], r1)
                else
                  (fix members (g : nat) (t : jsstr) (acc : list (jsstr * jv))
                     : option (jv * jsstr) :=
                     match g with
                     | O => None
                     | S g' =>
                         match skip_jws t with
                         | q :: t1 =>
                             if Z.eqb q 34 then
                               kr <-? json_string_body t1 ;;
                               match skip_jws (snd kr) with
                               | colon :: t2 =>
                                   if Z.eqb colon 58 then
                                     vr <-? json_value f t2 ;;
                                     match skip_jws (snd vr) with
                                     | sep :: t3 =>
                                         if Z.eqb sep 44 then
                                           members g' t3 ((fst kr, fst vr) :: acc)
                                         else if Z.eqb sep 125 then
                                           Some (JObj (rev ((fst kr, fst vr) :: acc)), t3)
                                         else None
                                     | [] => None
                                     end
                                   else None
                               | [] => None
                               end
                             else None
                         | [] => None
                         end
                     end) f r []
            | [] => None
            end
          else if Z.eqb c 91 then
            match skip_jws r with
            | d :: r1 =>
                if Z.eqb d 93 then Some (JArr [], r1)
                else
                  (fix elems (g : nat) (t : jsstr) (acc : list jv)
                     : option (jv * jsstr) :=
                     match g with
                     | O => None
                     | S g' =>
                         vr <-? json_value f t ;;
                         match skip_jws (snd vr) with
                         | sep :: t3 =>
                             if Z.eqb sep 44 then elems g' t3 (fst vr :: acc)
                             else if Z.eqb sep 93 then
                               Some (JArr (rev (fst vr :: acc)), t3)
                             else None
                         | [] => None
                         end
                     end) f r []
            | [] => None
            end
          else if Z.eqb c 34 then
            option_map (fun p => (JStr (fst p), snd p)) (json_string_body r)
          else if Z.eqb c 116 then
            option_map (fun t => (JBool true, t)) (strip_prefix (js "rue") r)
          else if Z.eqb c 102 then
            option_map (fun t => (JBool false, t)) (strip_prefix (js "alse") r)
          else if Z.eqb c 110 then
            option_map (fun t => (JNull, t)) (strip_prefix (js "ull") r)
          else json_number (c :: r)
      end
  end.

Definition json_parse (text : jsstr) : option jv :=
  match json_value (S (List.length text)) text with
  | Some (v, rest) => if is_empty (skip_jws rest) then Some v else None
  | None => None
  end.

(** ** The browser collaborators

    [fetch] (with [response.text()]), [chrome.tabs.create] and
    [chrome.notifications.create].  The environment answers the [n]-th call
    of each kind; every call is appended to the trace.  Notifications are
    recorded by their title (the messages are not modelled); they are not
    awaited and never throw. *)

Inductive fetch_result :=
| FetchThrow
| FetchResp (ok : bool) (body : jsstr).

Record env := {
  env_fetch : nat -> fetch_result;
  env_tab : nat -> bool
}.

Inductive event :=
| EvFetch (url : jsstr)
| EvTab (url : jv)
| EvNotify (title : jsstr).

Record state := {
  trace : list event;
  fetch_count : nat;
  tab_count : nat
}.

Definition init_state : state := {| trace := []; fetch_count := 0; tab_count := 0 |}.

(** An asynchronous function: runs to completion (its promise settles with
    a value or with a rejection). *)
Definition M (A : Type) : Type := state -> res A * state.

Definition ret {A} (a : A) : M A := fun st => (Ret a, st).

Definition throw {A} : M A := fun st => (Exc, st).

Definition mbind {A B} (m : M A) (k : A -> M B) : M B :=
  fun st =>
    match m st with
    | (Ret a, st') => k a st'
    | (Exc, st') => (Exc, st')
    end.

Notation "'let*' x := m 'in' k" := (mbind m (fun x => k))
  (at level 200, x name, m at level 100, k at level 200).

(** [try { m } catch { h }]. *)
Definition try_catch {A} (m : M A) (h : M A) : M A :=
  fun st =>
    match m st with
    | (Exc, st') => h st'
    | r => r
    end.

Definition lift {A} (r : res A) : M A := fun st => (r, st).

Definition lift_opt {A} (o : option A) : M A :=
  match o with Some a => ret a | None => throw end.

Section Browser.
Variable E : env.

Definition fetch (url : jsstr) : M (bool * jsstr) :=
  fun st =>
    let n := fetch_count st in
    let st' := {| trace := trace st ++ [EvFetch url]; fetch_count := S n;
                  tab_count := tab_count st |} in
    match env_fetch E n with
    | FetchThrow => (Exc, st')
    | FetchResp ok body => (Ret (ok, body), st')
    end.

Definition tabs_create (url : jv) : M unit :=
  fun st =>
    let n := tab_count st in
    let st' := {| trace := trace st ++ [EvTab url]; fetch_count := fetch_count st;
                  tab_count := S n |} in
    if env_tab E n then (Ret tt, st') else (Exc, st').

End Browser.

Definition notify (title : jsstr) : M unit :=
  fun st =>
    (Ret tt, {| trace := trace st ++ [EvNotify title]; fetch_count := fetch_count st;
                tab_count := tab_count st |}).

(** ** The [selectcite] object, background.js lines 4-217 *)

Section Pipeline.

(** [JSON.parse]: [None] when it throws a SyntaxError. *)
Variable JSON_parse : jsstr -> option jv.
Variable E : env.

(** The four patterns of [extractPaperIdFromResponse], in order. *)
Inductive pattern := Pat0 | Pat1 | Pat2 | Pat3.

Definition patterns : list pattern := [Pat0; Pat1; Pat2; Pat3].

Definition pattern_at (p : pattern) : jsstr -> option jsstr :=
  match p with
  | Pat0 => pat0_at
  | Pat1 => pat1_at
  | Pat2 => pat2_at
  | Pat3 => pat3_at
  end.

(** [responseText.match(pattern)], capture group 1. *)
Definition pattern_match (p : pattern) (responseText : jsstr) : option jsstr :=
  first_match (pattern_at p) responseText.

(** Lines 83-85: [if (searchData.r && searchData.r.length > 0 &&
    searchData.r[0].l && searchData.r[0].l.f && searchData.r[0].l.f.u)
    return searchData.r[0].l.f.u.replace('#f', '')].  [Ret (Some id)] is the
    [return]; calling [replace] on a value that is not a string throws. *)
Definition search_data_id (searchData : jv) : res (option jsstr) :=
  r <-! get_prop searchData (js "r") ;;
  if truthy r then
    len <-! get_prop r (js "length") ;;
    if gt_zero len then
      r0 <-! get_first r ;;
      l <-! get_prop r0 (js "l") ;;
      if truthy l then
        f <-! get_prop l (js "f") ;;
        if truthy f then
          u <-! get_prop f (js "u") ;;
          if truthy u then
            match u with
            | JStr s => Ret (Some (replace_first_empty (js "#f") s))
            | _ => Exc
            end
          else Ret None
        else Ret None
      else Ret None
    else Ret None
  else Ret None.

(** Body of the [for] loop for a pattern that matched with capture [m1]
    (lines 78-89): [Ret (Some id)] returns [id], [Ret None] continues. *)
Definition pattern_step (p : pattern) (m1 : jsstr) : res (option jsstr) :=
  match p with
  | Pat0 =>
      match JSON_parse m1 with
      | None => Exc
      | Some searchData => search_data_id searchData
      end
  | Pat3 => Ret (Some m1)
  | Pat1 | Pat2 => Ret None
  end.

(** Lines 75-91. *)
Fixpoint try_patterns (ps : list pattern) (responseText : jsstr)
  : res (option jsstr) :=
  match ps with
  | [] => Ret None
  | p :: ps' =>
      match pattern_match p responseText with
      | Some m1 =>
          found <-! pattern_step p m1 ;;
          match found with
          | Some id => Ret (Some id)
          | None => try_patterns ps' responseText
          end
      | None => try_patterns ps' responseText
      end
  end.

(** Lines 64-99, the body of the [try]. *)
Definition extract_body (responseText : jsstr) : res (option jsstr) :=
  found <-! try_patterns patterns responseText ;;
  match found with
  | Some id => Ret (Some id)
  | None => Ret (cite_link_match responseText)
  end.

(** [extractPaperIdFromResponse] (lines 63-104): the [catch] turns any
    exception into [null] ([None]). *)
Definition extractPaperIdFromResponse (responseText : jsstr) : option jsstr :=
  match extract_body responseText with
  | Ret found => found
  | Exc => None
  end.

(** Line 125: [citeData && citeData.i && citeData.i[0] &&
    citeData.i[0].l === "BibTeX"], then line 126 [citeData.i[0].u]. *)
Definition bibtex_entry_url (citeData : jv) : res (option jv) :=
  if truthy citeData then
    i <-! get_prop citeData (js "i") ;;
    if truthy i then
      i0 <-! get_first i ;;
      if truthy i0 then
        l <-! get_prop i0 (js "l") ;;
        if strict_eq_str l (js "BibTeX") then
          u <-! get_prop i0 (js "u") ;;
          Ret (Some u)
        else Ret None
      else Ret None
    else Ret None
  else Ret None.

Definition citeUrl_of (paperId : jsstr) : jsstr :=
  js "https://scholar.google.com/scholar?output=gsb-cite&hl=en&q=info:"
  ++ paperId ++ js ":scholar.google.com/".

Definition title_success : jsstr := js "SelectCite Success!".
Definition title_plain : jsstr := js "SelectCite".
Definition title_error : jsstr := js "SelectCite Error".

(** Lines 123-159.  [Ret true] is the inner [return]; [Ret false] falls
    through to line 161. *)
Definition parse_citation (citeText : jsstr) : M bool :=
  try_catch
    (match JSON_parse citeText with
     | None => throw
     | Some citeData =>
         let* hit := lift (bibtex_entry_url citeData) in
         match hit with
         | Some bibTexUrl =>
             let* _ := tabs_create E bibTexUrl in
             let* _ := notify title_success in
             ret true
         | None => ret false
         end
     end)
    (match bibtex_anchor_match citeText with
     | Some bibTexUrl =>
         let* _ := tabs_create E (JStr bibTexUrl) in
         let* _ := notify title_success in
         ret true
     | None => ret false
     end).

(** [getBibTexFromPaperId] (lines 110-174); the outer [catch] rethrows. *)
Definition getBibTexFromPaperId (paperId : jsstr) : M unit :=
  let citeUrl := citeUrl_of paperId in
  try_catch
    (let* citeResponse := fetch E citeUrl in
     if negb (fst citeResponse) then throw
     else
       let* returned := parse_citation (snd citeResponse) in
       if returned then ret tt
       else
         let* _ := tabs_create E (JStr citeUrl) in
         notify title_plain)
    throw.

Definition scholarUrl_of (encodedTerm : jsstr) : jsstr :=
  js "https://scholar.google.com/scholar?hl=en&q=" ++ encodedTerm.

(** [openScholarSearch] (lines 180-190); the [catch] rethrows. *)
Definition openScholarSearch (searchTerm : jsstr) : M unit :=
  try_catch
    (let* encodedTerm := lift_opt (encodeURIComponent searchTerm) in
     tabs_create E (JStr (scholarUrl_of encodedTerm)))
    throw.

Definition showErrorNotification : M unit := notify title_error.

Definition searchUrl_of (encoded : jsstr) : jsstr :=
  js "https://scholar.google.com/scholar?oi=gsb95&output=gsb&hl=en&q=" ++ encoded.

(** [searchForBibTex] (lines 9-56). *)
Definition searchForBibTex (keyword : jsstr) : M unit :=
  if is_empty keyword then ret tt
  else
    try_catch
      (let cleanKeyword := clean_keyword keyword in
       let* encoded := lift_opt (encodeURIComponent cleanKeyword) in
       let* searchResponse := fetch E (searchUrl_of encoded) in
       if negb (fst searchResponse) then throw
       else
         let paperId := extractPaperIdFromResponse (snd searchResponse) in
         match paperId with
         | Some id =>
             if negb (is_empty id) then getBibTexFromPaperId id
             else
               let* _ := openScholarSearch cleanKeyword in
               notify title_plain
         | None =>
             let* _ := openScholarSearch cleanKeyword in
             notify title_plain
         end)
      (let* _ := openScholarSearch (clean_keyword keyword) in
       showErrorNotification).

(** The [info] argument of the context-menu listener. *)
Record click_info := {
  menuItemId : jsstr;
  selectionText : option jsstr
}.

(** Lines 244-252: the argument [searchForBibTex] is called with, if any. *)
Definition onClicked_dispatch (info : click_info) : option jsstr :=
  if jsstr_eqb (menuItemId info) (js "selectcite-search") then
    match selectionText info with
    | Some sel =>
        if is_empty sel then None
        else
          let selectedText := trim sel in
          if Nat.ltb 0 (List.length selectedText) then Some selectedText else None
    | None => None
    end
  else None.

(** The listener (lines 243-254): [searchForBibTex] is called without
    [await], so its rejection does not reach the listener. *)
Definition onClicked (info : click_info) : M unit :=
  fun st =>
    match onClicked_dispatch info with
    | Some selectedText => (Ret tt, snd (searchForBibTex selectedText st))
    | None => (Ret tt, st)
    end.

End Pipeline.

(** ** Observations on runs *)

(** The URLs passed to [chrome.tabs.create], in order. *)
Definition tabs_opened (tr : list event) : list jv :=
  flat_map (fun ev => match ev with EvTab u => [u] | _ => [] end) tr.

(** The URLs fetched, in order. *)
Definition fetched (tr : list event) : list jsstr :=
  flat_map (fun ev => match ev with EvFetch u => [u] | _ => [] end) tr.

(** Code units of a JavaScript string. *)
Definition units_ok (s : jsstr) : Prop := Forall (fun c => 0 <= c <= 65535) s.

(** No unpaired surrogate code unit. *)
Fixpoint well_formed_utf16 (s : jsstr) : bool :=
  match s with
  | [] => true
  | c :: r =>
      if is_high_surrogate c then
        match r with
        | d :: r' => is_low_surrogate d && well_formed_utf16 r'
        | [] => false
        end
      else if is_low_surrogate c then false
      else well_formed_utf16 r
  end.

(** Concrete environments. *)
Definition env_responding (body : jsstr) : env :=
  {| env_fetch := fun _ => FetchResp true body; env_tab := fun _ => true |}.

Definition env_offline : env :=
  {| env_fetch := fun _ => FetchThrow; env_tab := fun _ => false |}.

(** ** The rest of background.js

    The file holds a second copy of the [selectcite] object and of the
    listeners (lines 283-423).  Its [openScholarSearch] (lines 322-332),
    [showErrorNotification] (lines 337-344), listeners and
    [getCurrentTabUrl] are the same code as the first copy's and are
    modelled once; its [searchForBibTex] (lines 291-315) only opens the
    search page. *)

Section Rest.
Variable E : env.

(** Line 298: [keyword.trim().replace(/\s+/g, ' ')]. *)
Definition clean_keyword_space (keyword : jsstr) : jsstr :=
  replace_ws_runs (js " ") false (trim keyword).

(** Line 307: the keyword shown in the notification,
    [cleanKeyword.length > 50 ? cleanKeyword.substring(0, 50) + '...' : cleanKeyword]. *)
Definition searching_label (cleanKeyword : jsstr) : jsstr :=
  if Nat.ltb 50 (List.length cleanKeyword) then firstn 50 cleanKeyword ++ js "..."
  else cleanKeyword.

(** The second [searchForBibTex] (lines 291-315): its [catch] only shows the
    error notification. *)
Definition searchForBibTex_simple (keyword : jsstr) : M unit :=
  if is_empty keyword then ret tt
  else
    try_catch
      (let cleanKeyword := clean_keyword_space keyword in
       let* _ := openScholarSearch E cleanKeyword in
       notify title_plain)
      showErrorNotification.

(** The second context-menu listener (lines 385-396), which calls the
    second [searchForBibTex], again without [await]. *)
Definition onClicked_simple (info : click_info) : M unit :=
  fun st =>
    match onClicked_dispatch info with
    | Some selectedText => (Ret tt, snd (searchForBibTex_simple selectedText st))
    | None => (Ret tt, st)
    end.

Definition scholar_home : jsstr := js "https://scholar.google.com/".

(** The toolbar-icon listener (lines 257-271 and 399-413). *)
Definition onActionClicked : M unit :=
  try_catch
    (let* _ := tabs_create E (JStr scholar_home) in
     notify title_plain)
    (ret tt).

End Rest.

(** Outcome of [chrome.tabs.query]: a rejection, or the array of tabs. *)
Inductive query_result :=
| QueryThrow
| QueryTabs (tabs : list jv).

(** [getCurrentTabUrl] (lines 208-216 and 350-358):
    [const [tab] = await chrome.tabs.query(...); return tab?.url || null],
    with [null] from the [catch]. *)
Definition getCurrentTabUrl (q : query_result) : jv :=
  match q with
  | QueryThrow => JNull
  | QueryTabs tabs =>
      let tab := match tabs with t :: _ => t | [] => JUndef end in
      let url := match tab with
                 | JUndef | JNull => Ret JUndef
                 | _ => get_prop tab (js "url")
                 end in
      match url with
      | Ret u => if truthy u then u else JNull
      | Exc => JNull
      end
  end.

(** Single spacing: every white-space code unit is a space, and none
    follows another one ([prev_ws] tells whether the previous one was). *)
Fixpoint spaced (prev_ws : bool) (s : jsstr) : bool :=
  match s with
  | [] => true
  | c :: r =>
      if is_ws c then negb prev_ws && Z.eqb c 32 && spaced true r
      else spaced false r
  end.

(** No white space at either end. *)
Definition edge_ws_free (s : jsstr) : bool :=
  match hd_error s with Some c => negb (is_ws c) | None => true end
  && match hd_error (rev s) with Some c => negb (is_ws c) | None => true end.

(** A code unit that may stand in a URL query as is: an unreserved
    character or the [%] of an escape. *)
Definition url_safe (c : Z) : Prop := uri_unreserved c = true \/ c = 37.

(** Bounds on the requests and tab creations of a run. *)
Definition costs {A} (m : M A) (f t : nat) : Prop :=
  forall st, (fetch_count (snd (m st)) <= fetch_count st + f)%nat /\
             (tab_count (snd (m st)) <= tab_count st + t)%nat.

(** ** Sample inputs *)

(** C5: an embedded assignment that is not JSON, then a citation-info link. *)
Definition c5_body : jsstr :=
  js "window.googleSearchResponse = {bad}; <a href=/scholar?q=info:ABC:scholar.google.com/>".

(** [{"i":[{"l":"RIS","u":"r"},{"l":"BibTeX","u":"b"}]}] *)
Definition c2_body : jsstr :=
  js "{" ++ quote ++ js "i" ++ quote ++ js ":[{"
  ++ quote ++ js "l" ++ quote ++ js ":" ++ quote ++ js "RIS" ++ quote ++ js ","
  ++ quote ++ js "u" ++ quote ++ js ":" ++ quote ++ js "r" ++ quote ++ js "},{"
  ++ quote ++ js "l" ++ quote ++ js ":" ++ quote ++ js "BibTeX" ++ quote ++ js ","
  ++ quote ++ js "u" ++ quote ++ js ":" ++ quote ++ js "b" ++ quote ++ js "}]}".

Definition c2_entries : list jv :=
  [JObj [(js "l", JStr (js "RIS")); (js "u", JStr (js "r"))];
   JObj [(js "l", JStr (js "BibTeX")); (js "u", JStr (js "b"))]].

(** The same list with the [BibTeX] entry first. *)
Definition c2_body_first : jsstr :=
  js "{" ++ quote ++ js "i" ++ quote ++ js ":[{"
  ++ quote ++ js "l" ++ quote ++ js ":" ++ quote ++ js "BibTeX" ++ quote ++ js ","
  ++ quote ++ js "u" ++ quote ++ js ":" ++ quote ++ js "b" ++ quote ++ js "}]}".



(** C6: a search response with the embedded assignment of a result whose
    [r[0].l.f.u] is [u]; [c6_value u] is its parse, [c6_e], [c6_l] and
    [c6_f] the values along the path. *)
Definition c6_json (u : jsstr) : jsstr :=
  js "{" ++ quote ++ js "r" ++ quote ++ js ":[{" ++ quote ++ js "l" ++ quote ++ js ":{"
  ++ quote ++ js "f" ++ quote ++ js ":{" ++ quote ++ js "u" ++ quote ++ js ":"
  ++ quote ++ u ++ quote ++ js "}}}]}".

Definition c6_body (u : jsstr) : jsstr :=
  js "window.googleSearchResponse = " ++ c6_json u ++ js ";".

Definition c6_f (u : jsstr) : jv := JObj [(js "u", JStr u)].
Definition c6_l (u : jsstr) : jv := JObj [(js "f", c6_f u)].
Definition c6_e (u : jsstr) : jv := JObj [(js "l", c6_l u)].
Definition c6_value (u : jsstr) : jv := JObj [(js "r", JArr [c6_e u])].

(** Responses and environments of the further properties: a search
    result with a [data-href] info link, a network that is down, a citation
    request that fails, a first tab that fails, and every tab failing. *)
Definition info_body : jsstr :=
  js "data-href=" ++ quote ++ js "/scholar?q=info:ABC:scholar.google.com/".

Definition env_net_down : env :=
  {| env_fetch := fun _ => FetchThrow; env_tab := fun _ => true |}.

Definition env_cite_down (body : jsstr) : env :=
  {| env_fetch := fun n => match n with O => FetchResp true body | _ => FetchThrow end;
     env_tab := fun _ => true |}.

Definition env_first_tab_fails (body : jsstr) : env :=
  {| env_fetch := fun _ => FetchResp true body;
     env_tab := fun n => match n with O => false | _ => true end |}.

Definition env_three_tabs : env :=
  {| env_fetch := fun n => match n with O => FetchResp true info_body
                                     | _ => FetchResp true c2_body_first end;
     env_tab := fun _ => false |}.

Definition num_url_body : jsstr :=
  js "window.googleSearchResponse = {" ++ quote ++ js "r" ++ quote ++ js ":[{"
  ++ quote ++ js "l" ++ quote ++ js ":{" ++ quote ++ js "f" ++ quote ++ js ":{"
  ++ quote ++ js "u" ++ quote ++ js ":5}}}]}; " ++ info_body.

Definition empty_r_body : jsstr :=
  js "window.googleSearchResponse = {" ++ quote ++ js "r" ++ quote
  ++ js ":[]}; <a href=/scholar?q=info:XYZ:scholar.google.com/>".

Definition num_url_f : jv := JObj [(js "u", JNum 5 0)].
Definition num_url_l : jv := JObj [(js "f", num_url_f)].
Definition num_url_e : jv := JObj [(js "l", num_url_l)].
Definition num_url_value : jv := JObj [(js "r", JArr [num_url_e])].


(** Runs that only append to the trace. *)
Definition extends {A} (m : M A) : Prop :=
  forall st, exists ext, trace (snd (m st)) = trace st ++ ext.

(** * Proofs *)

Ltac dlia := Z.div_mod_to_equations; lia.

Ltac zbool :=
  repeat match goal with
  | |- context [?x <? ?y] =>
      first [ rewrite (proj2 (Z.ltb_lt x y)) by dlia
            | rewrite (proj2 (Z.ltb_ge x y)) by dlia ]
  | |- context [?x <=? ?y] =>
      first [ rewrite (proj2 (Z.leb_le x y)) by dlia
            | rewrite (proj2 (Z.leb_gt x y)) by dlia ]
  | |- context [Z.eqb ?x ?y] =>
      first [ rewrite (proj2 (Z.eqb_eq x y)) by dlia
            | rewrite (proj2 (Z.eqb_neq x y)) by dlia ]
  end.

Ltac units_tac :=
  unfold units_ok; cbn; repeat (apply Forall_cons; [lia|]); apply Forall_nil.

(** ** Percent-encoding *)
Lemma hex_val_digit d : 0 <= d < 16 -> hex_val (hex_digit d) = Some d.
Proof.
  intros Hd. unfold hex_digit, hex_val, in_range.
  destruct (Z.ltb_spec d 10); zbool; cbn [andb]; f_equal; dlia.
Qed.

Lemma hex_byte_pct b : 0 <= b < 256 ->
  hex_byte (hex_digit (b / 16)) (hex_digit (b mod 16)) = Some b.
Proof.
  intros Hb. unfold hex_byte.
  rewrite !hex_val_digit by dlia. f_equal; dlia.
Qed.

Lemma cont_bits_pct x : 0 <= x < 64 ->
  cont_bits 37 (hex_digit ((128 + x) / 16)) (hex_digit ((128 + x) mod 16))
  = Some x.
Proof.
  intros Hx. unfold cont_bits. rewrite Z.eqb_refl.
  rewrite hex_byte_pct by dlia. unfold in_range. zbool. cbn [andb]. f_equal; dlia.
Qed.

Lemma option_map_cons_app (c : Z) (o : option jsstr) :
  option_map (cons c) o = option_map (app [c]) o.
Proof. destruct o; reflexivity. Qed.

Lemma decode_1 h1 h2 rest b :
  hex_byte h1 h2 = Some b -> b < 128 ->
  decodeURIComponent (37 :: h1 :: h2 :: rest)
  = option_map (cons b) (decodeURIComponent rest).
Proof. intros H Hb. simpl. rewrite H. simpl. zbool. reflexivity. Qed.

Lemma decode_2 h1 h2 p2 a2 b2 rest b x2 :
  hex_byte h1 h2 = Some b -> 192 <= b <= 223 ->
  cont_bits p2 a2 b2 = Some x2 -> 128 <= (b - 192) * 64 + x2 ->
  decodeURIComponent (37 :: h1 :: h2 :: p2 :: a2 :: b2 :: rest)
  = option_map (app (utf16_units ((b - 192) * 64 + x2))) (decodeURIComponent rest).
Proof.
  intros H Hb H2 Hc. simpl. rewrite H. simpl. unfold in_range. zbool.
  simpl. rewrite H2. simpl. zbool. reflexivity.
Qed.

Lemma decode_3 h1 h2 p2 a2 b2 p3 a3 b3 rest b x2 x3 :
  hex_byte h1 h2 = Some b -> 224 <= b <= 239 ->
  cont_bits p2 a2 b2 = Some x2 -> cont_bits p3 a3 b3 = Some x3 ->
  2048 <= (b - 224) * 4096 + x2 * 64 + x3 ->
  ~ (55296 <= (b - 224) * 4096 + x2 * 64 + x3 <= 57343) ->
  decodeURIComponent (37 :: h1 :: h2 :: p2 :: a2 :: b2 :: p3 :: a3 :: b3 :: rest)
  = option_map (app (utf16_units ((b - 224) * 4096 + x2 * 64 + x3)))
      (decodeURIComponent rest).
Proof.
  intros H Hb H2 H3 Hc Hs. simpl. rewrite H. simpl. unfold in_range. zbool.
  simpl. rewrite H2. simpl. rewrite H3. simpl.
  destruct (Z.leb_spec 55296 ((b - 224) * 4096 + x2 * 64 + x3));
  destruct (Z.leb_spec ((b - 224) * 4096 + x2 * 64 + x3) 57343);
  try lia; zbool; reflexivity.
Qed.

Lemma decode_4 h1 h2 p2 a2 b2 p3 a3 b3 p4 a4 b4 rest b x2 x3 x4 :
  hex_byte h1 h2 = Some b -> 240 <= b <= 247 ->
  cont_bits p2 a2 b2 = Some x2 -> cont_bits p3 a3 b3 = Some x3 ->
  cont_bits p4 a4 b4 = Some x4 ->
  65536 <= (b - 240) * 262144 + x2 * 4096 + x3 * 64 + x4 <= 1114111 ->
  decodeURIComponent
    (37 :: h1 :: h2 :: p2 :: a2 :: b2 :: p3 :: a3 :: b3 :: p4 :: a4 :: b4 :: rest)
  = option_map (app (utf16_units ((b - 240) * 262144 + x2 * 4096 + x3 * 64 + x4)))
      (decodeURIComponent rest).
Proof.
  intros H Hb H2 H3 H4 Hc. simpl. rewrite H. simpl. unfold in_range. zbool.
  simpl. rewrite H2. simpl. rewrite H3. simpl. rewrite H4. simpl.
  zbool. reflexivity.
Qed.

Lemma decode_pct_octets cp rest :
  0 <= cp <= 1114111 -> ~ (55296 <= cp <= 57343) ->
  decodeURIComponent (pct_octets cp ++ rest)
  = option_map (app (utf16_units cp)) (decodeURIComponent rest).
Proof.
  intros Hcp Hs. unfold pct_octets, utf8_octets.
  destruct (Z.ltb_spec cp 128).
  - cbn [flat_map pct app]. rewrite (decode_1 _ _ _ cp) by (try apply hex_byte_pct; dlia).
    unfold utf16_units. zbool. apply option_map_cons_app.
  - destruct (Z.ltb_spec cp 2048).
    + cbn [flat_map pct app].
      rewrite (decode_2 _ _ _ _ _ _ (192 + cp / 64) (cp mod 64))
        by (try apply hex_byte_pct; try apply cont_bits_pct; dlia).
      f_equal. f_equal. f_equal. dlia.
    + destruct (Z.ltb_spec cp 65536).
      * cbn [flat_map pct app].
        rewrite (decode_3 _ _ _ _ _ _ _ _ _ (224 + cp / 4096) ((cp / 64) mod 64) (cp mod 64))
          by (try apply hex_byte_pct; try apply cont_bits_pct; dlia).
        f_equal. f_equal. f_equal. dlia.
      * cbn [flat_map pct app].
        rewrite (decode_4 _ _ _ _ _ _ _ _ _ _ _ _ (240 + cp / 262144)
                   ((cp / 4096) mod 64) ((cp / 64) mod 64) (cp mod 64))
          by (try apply hex_byte_pct; try apply cont_bits_pct; dlia).
        f_equal. f_equal. f_equal. dlia.
Qed.

Lemma utf16_units_bmp c : 0 <= c < 65536 -> utf16_units c = [c].
Proof. intros. unfold utf16_units. zbool. reflexivity. Qed.

Lemma utf16_units_pair c d :
  is_high_surrogate c = true -> is_low_surrogate d = true ->
  utf16_units (pair_code_point c d) = [c; d].
Proof.
  unfold is_high_surrogate, is_low_surrogate, in_range, pair_code_point.
  intros Hc Hd. apply andb_prop in Hc, Hd.
  destruct Hc as [Hc1 Hc2], Hd as [Hd1 Hd2].
  apply Z.leb_le in Hc1, Hc2, Hd1, Hd2.
  unfold utf16_units. zbool. f_equal; [|f_equal]; dlia.
Qed.

Lemma encode_roundtrip_len n : forall s e,
  (List.length s <= n)%nat -> units_ok s ->
  encodeURIComponent s = Some e -> decodeURIComponent e = Some s.
Proof.
  induction n as [|n IH]; intros s e Hlen Hok Henc.
  - destruct s; [|simpl in Hlen; lia]. inversion Henc; reflexivity.
  - destruct s as [|c r]; [inversion Henc; reflexivity|].
    inversion Hok as [|? ? Hc Hr]; subst.
    simpl in Hlen. cbn [encodeURIComponent] in Henc.
    destruct (uri_unreserved c) eqn:Hu.
    + destruct (encodeURIComponent r) as [e'|] eqn:Hr'; inversion Henc; subst.
      assert (Hc37 : Z.eqb c 37 = false).
      { apply Z.eqb_neq. intros ->. discriminate Hu. }
      simpl. rewrite Hc37. simpl. rewrite (IH r e') by (auto; lia). reflexivity.
    + destruct (is_high_surrogate c) eqn:Hh.
      * destruct r as [|d r']; [discriminate|].
        destruct (is_low_surrogate d) eqn:Hl; [|discriminate].
        inversion Hr as [|? ? Hd Hr2]; subst.
        destruct (encodeURIComponent r') as [e'|] eqn:Hr'; inversion Henc; subst.
        rewrite decode_pct_octets.
        -- rewrite (IH r' e') by (auto; simpl in Hlen; lia). simpl.
           rewrite utf16_units_pair by assumption. reflexivity.
        -- unfold is_high_surrogate, is_low_surrogate, in_range, pair_code_point in *.
           apply andb_prop in Hh, Hl. destruct Hh as [H1 H2], Hl as [H3 H4].
           apply Z.leb_le in H1, H2, H3, H4. lia.
        -- unfold is_high_surrogate, is_low_surrogate, in_range, pair_code_point in *.
           apply andb_prop in Hh, Hl. destruct Hh as [H1 H2], Hl as [H3 H4].
           apply Z.leb_le in H1, H2, H3, H4. lia.
      * destruct (is_low_surrogate c) eqn:Hl; [discriminate|].
        destruct (encodeURIComponent r) as [e'|] eqn:Hr'; inversion Henc; subst.
        assert (Hns : ~ (55296 <= c <= 57343)).
        { unfold is_high_surrogate, is_low_surrogate, in_range in *.
          destruct (Z.leb_spec 55296 c), (Z.leb_spec c 56319),
            (Z.leb_spec 56320 c), (Z.leb_spec c 57343);
            simpl in Hh, Hl; try discriminate; lia. }
        rewrite decode_pct_octets by lia.
        rewrite (IH r e') by (auto; lia). simpl.
        rewrite utf16_units_bmp by lia. reflexivity.
Qed.


Lemma unreserved_ascii c : uri_unreserved c = true -> 0 <= c <= 126.
Proof.
  unfold uri_unreserved, in_range. intros H.
  repeat (apply orb_prop in H; destruct H as [H|H]);
    try (apply andb_prop in H; destruct H as [H1 H2];
         apply Z.leb_le in H1, H2; lia);
    apply Z.eqb_eq in H; lia.
Qed.

Lemma encode_total_len n : forall s,
  (List.length s <= n)%nat -> well_formed_utf16 s = true ->
  exists e, encodeURIComponent s = Some e.
Proof.
  induction n as [|n IH]; intros s Hlen Hwf.
  - destruct s; [exists []; reflexivity | simpl in Hlen; lia].
  - destruct s as [|c r]; [exists []; reflexivity|].
    simpl in Hlen. cbn [encodeURIComponent].
    destruct (uri_unreserved c) eqn:Hu.
    + assert (Hh : is_high_surrogate c = false /\ is_low_surrogate c = false).
      { apply unreserved_ascii in Hu.
        unfold is_high_surrogate, is_low_surrogate, in_range. zbool. auto. }
      destruct Hh as [Hh Hl]. cbn [well_formed_utf16] in Hwf.
      rewrite Hh, Hl in Hwf.
      destruct (IH r) as [e He]; [lia | exact Hwf |].
      rewrite He. eexists; reflexivity.
    + cbn [well_formed_utf16] in Hwf.
      destruct (is_high_surrogate c).
      * destruct r as [|d r']; [discriminate|].
        apply andb_prop in Hwf. destruct Hwf as [Hd Hwf]. rewrite Hd.
        destruct (IH r') as [e He]; [simpl in Hlen; lia | exact Hwf |].
        rewrite He. eexists; reflexivity.
      * destruct (is_low_surrogate c); [discriminate|].
        destruct (IH r) as [e He]; [lia | exact Hwf |].
        rewrite He. eexists; reflexivity.
Qed.

Lemma trim_start_forall (P : Z -> Prop) s : Forall P s -> Forall P (trim_start s).
Proof.
  induction s as [|c r IH]; intros H; [constructor|].
  inversion H; subst. simpl. destruct (is_ws c); auto.
Qed.

Lemma trim_forall (P : Z -> Prop) s : Forall P s -> Forall P (trim s).
Proof.
  intros H. unfold trim. apply Forall_rev, trim_start_forall, Forall_rev,
    trim_start_forall, H.
Qed.

Lemma replace_ws_runs_forall (P : Z -> Prop) rep b s :
  Forall P rep -> Forall P s -> Forall P (replace_ws_runs rep b s).
Proof.
  intros Hrep. revert b. induction s as [|c r IH]; intros b H; [constructor|].
  inversion H; subst. simpl.
  destruct (is_ws c); [destruct b; [|apply Forall_app; split]|]; auto.
Qed.

Lemma clean_keyword_units s : units_ok s -> units_ok (clean_keyword s).
Proof.
  intros H. unfold units_ok, clean_keyword.
  apply replace_ws_runs_forall; [cbn; constructor; [lia | constructor]|].
  apply trim_forall, H.
Qed.

(** ** Claim C9: percent-encoding of the normalized query *)

Lemma surrogate_bounds c :
  (is_high_surrogate c = true -> 55296 <= c <= 56319) /\
  (is_low_surrogate c = true -> 56320 <= c <= 57343).
Proof.
  unfold is_high_surrogate, is_low_surrogate, in_range.
  split; intros H; apply andb_prop in H; destruct H as [H1 H2];
    apply Z.leb_le in H1, H2; lia.
Qed.

Lemma unreserved_not_surrogate c :
  uri_unreserved c = true -> is_high_surrogate c = false /\ is_low_surrogate c = false.
Proof.
  intros H. apply unreserved_ascii in H.
  unfold is_high_surrogate, is_low_surrogate, in_range.
  split; apply andb_false_iff; left; apply Z.leb_gt; lia.
Qed.

Lemma encode_some_wf_len n : forall s e,
  (List.length s <= n)%nat -> encodeURIComponent s = Some e -> well_formed_utf16 s = true.
Proof.
  induction n as [|n IH]; intros s e Hlen He.
  - destruct s; [reflexivity | cbn in Hlen; lia].
  - destruct s as [|c r]; [reflexivity|]. cbn in Hlen. cbn [encodeURIComponent] in He.
    cbn [well_formed_utf16].
    destruct (uri_unreserved c) eqn:Hu.
    + destruct (unreserved_not_surrogate c Hu) as [-> ->].
      destruct (encodeURIComponent r) eqn:Er; [|discriminate]. apply (IH r j); [lia | exact Er].
    + destruct (is_high_surrogate c).
      * destruct r as [|d r']; [discriminate|]. destruct (is_low_surrogate d); [|discriminate].
        cbn [andb]. destruct (encodeURIComponent r') eqn:Er; [|discriminate].
        apply (IH r' j); [cbn in Hlen; lia | exact Er].
      * destruct (is_low_surrogate c); [discriminate|].
        destruct (encodeURIComponent r) eqn:Er; [|discriminate]. apply (IH r j); [lia | exact Er].
Qed.

Lemma encode_none_iff s : encodeURIComponent s = None <-> well_formed_utf16 s = false.
Proof.
  split.
  - intros Hn. destruct (well_formed_utf16 s) eqn:Hw; [|reflexivity].
    destruct (encode_total_len (List.length s) s (le_n _) Hw) as [e He]. congruence.
  - intros Hw. destruct (encodeURIComponent s) as [e|] eqn:He; [|reflexivity].
    rewrite (encode_some_wf_len (List.length s) s e (le_n _) He) in Hw. discriminate.
Qed.

(** C9 (as stated, refuted): decoding the percent-encoding of every
    normalized query gives it back.  A query holding an unpaired surrogate
    has no encoding: [encodeURIComponent] throws a URIError. *)
Lemma c9_lone_surrogate_not_encodable :
  units_ok (js "a " ++ [55296]) /\
  ~ (exists e, encodeURIComponent (clean_keyword (js "a " ++ [55296])) = Some e /\
               decodeURIComponent e = Some (clean_keyword (js "a " ++ [55296]))).
Proof.
  split.
  - units_tac.
  - intros [e [He _]]. vm_compute in He. discriminate.
Qed.

(** C9 (amended): for every query whose normalized form
    [keyword.trim().replace(/\s+/g, '+')] has no unpaired surrogate,
    [encodeURIComponent] succeeds on it and [decodeURIComponent] of the
    result is exactly the normalized form; when the normalized form has an
    unpaired surrogate, [encodeURIComponent] throws ([None]). *)
Theorem clean_keyword_uri_roundtrip (keyword : jsstr) :
  units_ok keyword ->
  (well_formed_utf16 (clean_keyword keyword) = false ->
   encodeURIComponent (clean_keyword keyword) = None) /\
  (well_formed_utf16 (clean_keyword keyword) = true ->
   exists e, encodeURIComponent (clean_keyword keyword) = Some e /\
             decodeURIComponent e = Some (clean_keyword keyword)).
Proof.
  intros Hok. split; [apply encode_none_iff|]. intros Hwf.
  destruct (encode_total_len (List.length (clean_keyword keyword))
              (clean_keyword keyword) (le_n _) Hwf) as [e He].
  exists e. split; [exact He|].
  apply (encode_roundtrip_len (List.length (clean_keyword keyword)));
    [lia | apply clean_keyword_units, Hok | exact He].
Qed.

Lemma clean_keyword_uri_roundtrip_witness :
  let k := js " Attention (is) all\t you* need! " ++ [233; 55357; 56832] in
  units_ok k /\ well_formed_utf16 (clean_keyword k) = true /\
  exists e, encodeURIComponent (clean_keyword k) = Some e /\
            decodeURIComponent e = Some (clean_keyword k).
Proof.
  intros k. assert (Hk : units_ok k) by units_tac.
  assert (Hw : well_formed_utf16 (clean_keyword k) = true) by (vm_compute; reflexivity).
  split; [exact Hk|]. split; [exact Hw|].
  exact (proj2 (clean_keyword_uri_roundtrip k Hk) Hw).
Defined.

(** ** Claim C8: empty selections never reach the pipeline *)

(** C8: a context-menu click whose selection is empty or white space only
    after trimming calls [searchForBibTex] with nothing, and the listener
    leaves the state unchanged: no request, no tab, no notification. *)
Theorem blank_selection_ignored JSON_parse E info sel st :
  selectionText info = Some sel -> trim sel = [] ->
  onClicked_dispatch info = None /\ onClicked JSON_parse E info st = (Ret tt, st).
Proof.
  intros Hsel Htrim.
  assert (Hd : onClicked_dispatch info = None).
  { unfold onClicked_dispatch. rewrite Hsel, Htrim.
    destruct (jsstr_eqb _ _), (is_empty sel); reflexivity. }
  split; [exact Hd|]. unfold onClicked. rewrite Hd. reflexivity.
Qed.

Lemma blank_selection_ignored_witness :
  let info := {| menuItemId := js "selectcite-search";
                 selectionText := Some [32; 9; 10; 160; 32] |} in
  selectionText info = Some [32; 9; 10; 160; 32] /\ trim [32; 9; 10; 160; 32] = [] /\
  onClicked_dispatch info = None /\
  onClicked json_parse env_offline info init_state = (Ret tt, init_state).
Proof.
  intros info. split; [reflexivity|]. split; [reflexivity|].
  exact (blank_selection_ignored json_parse env_offline info _ init_state
           eq_refl eq_refl).
Defined.

(** ** Claims C5 and C10: identifier extraction *)

Lemma extract_cases JSON_parse body :
  extractPaperIdFromResponse JSON_parse body =
  match pattern_match Pat0 body with
  | Some g =>
      match JSON_parse g with
      | None => None
      | Some v =>
          match search_data_id v with
          | Exc => None
          | Ret (Some id) => Some id
          | Ret None =>
              match pattern_match Pat3 body with
              | Some id => Some id
              | None => cite_link_match body
              end
          end
      end
  | None =>
      match pattern_match Pat3 body with
      | Some id => Some id
      | None => cite_link_match body
      end
  end.
Proof.
  unfold extractPaperIdFromResponse, extract_body, patterns. cbn [try_patterns].
  destruct (pattern_match Pat0 body) as [g|]; cbn [pattern_step res_bind];
    [destruct (JSON_parse g) as [v|]; cbn [res_bind];
     [destruct (search_data_id v) as [[id|]|]; cbn [res_bind]|]|];
    try reflexivity;
    destruct (pattern_match Pat1 body), (pattern_match Pat2 body);
    cbn [pattern_step res_bind];
    destruct (pattern_match Pat3 body); reflexivity.
Qed.

(** C10: a non-null identifier comes only from the embedded JSON object
    (pattern 0), the direct [data-href] info link (pattern 3) or the final
    whole-body citation-info scan; in particular a body on which patterns 0
    and 3 and the final scan all fail (whatever the inline array and
    [data-clk] patterns do) yields [null]. *)
Theorem extract_only_through JSON_parse body :
  (forall id, extractPaperIdFromResponse JSON_parse body = Some id ->
     (exists g v, pattern_match Pat0 body = Some g /\ JSON_parse g = Some v /\
                  search_data_id v = Ret (Some id))
     \/ pattern_match Pat3 body = Some id
     \/ cite_link_match body = Some id) /\
  (pattern_match Pat0 body = None -> pattern_match Pat3 body = None ->
   cite_link_match body = None ->
   extractPaperIdFromResponse JSON_parse body = None).
Proof.
  rewrite extract_cases. split.
  - intros id.
    destruct (pattern_match Pat0 body) as [g|] eqn:H0;
      [destruct (JSON_parse g) as [v|] eqn:Hp;
       [destruct (search_data_id v) as [[id'|]|] eqn:Hs|]|];
      try discriminate;
      try (intros Heq; inversion Heq; subst; left; exists g, v; auto; fail);
      destruct (pattern_match Pat3 body) eqn:H3;
      intros Heq; try (inversion Heq; subst; right; left; reflexivity);
      right; right; exact Heq.
  - intros H0 H3 Hc. rewrite H0, H3, Hc. reflexivity.
Qed.

Lemma extract_only_through_witness :
  let body := quote ++ js "r" ++ quote ++ js ": [{x}] data-clk=" ++ quote ++ js "abc"
              ++ quote in
  pattern_match Pat1 body = Some (js "{x}") /\
  pattern_match Pat2 body = Some (js "abc") /\
  pattern_match Pat0 body = None /\ pattern_match Pat3 body = None /\
  cite_link_match body = None /\
  extractPaperIdFromResponse json_parse body = None.
Proof.
  intros body.
  assert (H0 : pattern_match Pat0 body = None) by reflexivity.
  assert (H3 : pattern_match Pat3 body = None) by reflexivity.
  assert (Hc : cite_link_match body = None) by reflexivity.
  do 5 (split; [reflexivity|]).
  exact (proj2 (extract_only_through json_parse body) H0 H3 Hc).
Defined.

(** C5 (code defect): when the embedded-JSON pattern matches but its text
    is not JSON, [JSON.parse] throws inside the single [try] of
    [extractPaperIdFromResponse], whose [catch] returns [null]: the final
    citation-info scan, which finds [ABC] on this body, is never applied. *)
Theorem extract_parse_failure_skips_scan :
  pattern_match Pat0 c5_body = Some (js "{bad}") /\
  json_parse (js "{bad}") = None /\
  cite_link_match c5_body = Some (js "ABC") /\
  extractPaperIdFromResponse json_parse c5_body = None.
Proof. vm_compute. repeat split. Qed.

(** ** Claims C2, C3 and C7: the citation-export response *)

Ltac mcbn :=
  cbn -[app js bibtex_anchor_match cite_link_match title_success title_plain
        title_error citeUrl_of scholarUrl_of searchUrl_of clean_keyword
        encodeURIComponent extractPaperIdFromResponse bibtex_entry_url].

Ltac run_m :=
  unfold getBibTexFromPaperId, parse_citation, openScholarSearch,
    showErrorNotification, try_catch, mbind, fetch, tabs_create, notify,
    lift, lift_opt, ret, throw; mcbn.

Ltac app_norm := repeat rewrite <- app_assoc; cbn [app].

(** C7: when the response neither passes the JSON test of line 125 nor
    matches the anchor pattern, [getBibTexFromPaperId] opens the
    citation-endpoint URL itself, its only tab; it succeeds (with the
    plain notification) exactly when that tab opens. *)
Theorem getBibTex_opens_cite_page JSON_parse E paperId st body :
  env_fetch E (fetch_count st) = FetchResp true body ->
  (forall v, JSON_parse body = Some v -> bibtex_entry_url v = Ret None) ->
  bibtex_anchor_match body = None ->
  getBibTexFromPaperId JSON_parse E paperId st =
  (if env_tab E (tab_count st) then Ret tt else Exc,
   {| trace := trace st ++ [EvFetch (citeUrl_of paperId);
                            EvTab (JStr (citeUrl_of paperId))]
               ++ (if env_tab E (tab_count st) then [EvNotify title_plain] else []);
      fetch_count := S (fetch_count st);
      tab_count := S (tab_count st) |}).
Proof.
  intros Hf Hjson Ha. run_m. rewrite Hf. mcbn.
  destruct (JSON_parse body) as [v|] eqn:Hp.
  - rewrite (Hjson v eq_refl). mcbn.
    destruct (env_tab E (tab_count st)); mcbn; app_norm; reflexivity.
  - rewrite Ha. mcbn.
    destruct (env_tab E (tab_count st)); mcbn; app_norm; reflexivity.
Qed.

Lemma getBibTex_opens_cite_page_witness :
  let body := js "<html>no export links</html>" in
  env_fetch (env_responding body) 0%nat = FetchResp true body /\
  (forall v, json_parse body = Some v -> bibtex_entry_url v = Ret None) /\
  bibtex_anchor_match body = None /\
  getBibTexFromPaperId json_parse (env_responding body) (js "ABC") init_state =
  (Ret tt,
   {| trace := [EvFetch (citeUrl_of (js "ABC")); EvTab (JStr (citeUrl_of (js "ABC")));
                EvNotify title_plain];
      fetch_count := 1%nat; tab_count := 1%nat |}).
Proof.
  intros body.
  assert (Hf : env_fetch (env_responding body) 0%nat = FetchResp true body) by reflexivity.
  assert (Hj : forall v, json_parse body = Some v -> bibtex_entry_url v = Ret None)
    by (intros v Hv; vm_compute in Hv; discriminate).
  assert (Ha : bibtex_anchor_match body = None) by reflexivity.
  split; [exact Hf|]. split; [exact Hj|]. split; [exact Ha|].
  exact (getBibTex_opens_cite_page json_parse (env_responding body) (js "ABC")
           init_state body Hf Hj Ha).
Defined.

Lemma jsstr_eqb_eq s t : jsstr_eqb s t = true <-> s = t.
Proof.
  revert t. induction s as [|c s IH]; intros [|d t]; cbn; try (split; congruence).
  rewrite andb_true_iff, Z.eqb_eq, IH. split; [intros [-> ->]; reflexivity|].
  intros H; inversion H; auto.
Qed.

Lemma tabs_opened_app tr1 tr2 :
  tabs_opened (tr1 ++ tr2) = tabs_opened tr1 ++ tabs_opened tr2.
Proof. unfold tabs_opened. apply flat_map_app. Qed.

Ltac tabs_norm :=
  repeat (rewrite tabs_opened_app || rewrite <- app_assoc); cbn [tabs_opened flat_map app].

Lemma fetched_app tr1 tr2 : fetched (tr1 ++ tr2) = fetched tr1 ++ fetched tr2.
Proof. unfold fetched. apply flat_map_app. Qed.

Ltac fetched_norm :=
  repeat (rewrite fetched_app || rewrite <- app_assoc); cbn [fetched flat_map app].

(** A JSON body that fails the test of line 125: only the
    citation-endpoint URL is opened. *)
Lemma getBibTex_json_miss JSON_parse E paperId st body v :
  env_fetch E (fetch_count st) = FetchResp true body ->
  JSON_parse body = Some v -> bibtex_entry_url v = Ret None ->
  tabs_opened (trace (snd (getBibTexFromPaperId JSON_parse E paperId st)))
  = tabs_opened (trace st) ++ [JStr (citeUrl_of paperId)].
Proof.
  intros Hf Hp Hv. run_m. rewrite Hf. mcbn. rewrite Hp, Hv. mcbn.
  destruct (env_tab E (tab_count st)); mcbn; tabs_norm; reflexivity.
Qed.




Lemma bibtex_entry_url_first kvs ekvs es :
  obj_lookup kvs (js "i") = JArr (JObj ekvs :: es) ->
  bibtex_entry_url (JObj kvs) =
  if strict_eq_str (obj_lookup ekvs (js "l")) (js "BibTeX")
  then Ret (Some (obj_lookup ekvs (js "u"))) else Ret None.
Proof.
  intros Hi. unfold bibtex_entry_url. cbn [truthy get_prop res_bind].
  rewrite Hi. cbn [truthy get_first res_bind get_prop].
  destruct (strict_eq_str _ _); reflexivity.
Qed.

(** C2 (amended): only the first entry of the list [i] is examined.  When
    the body parses to an object whose [i] is a list whose first entry is an
    object labelled exactly [BibTeX], the first tab opened is that entry's
    [u] (and the run ends with the success notification when the tab
    opens); when the first entry's label is anything else, the only tab
    opened is the citation-endpoint URL, whatever the later entries are. *)
Theorem getBibTex_first_entry JSON_parse E paperId st body kvs ekvs es :
  env_fetch E (fetch_count st) = FetchResp true body ->
  JSON_parse body = Some (JObj kvs) ->
  obj_lookup kvs (js "i") = JArr (JObj ekvs :: es) ->
  (obj_lookup ekvs (js "l") = JStr (js "BibTeX") ->
   (exists rest,
      trace (snd (getBibTexFromPaperId JSON_parse E paperId st))
      = trace st ++ EvFetch (citeUrl_of paperId) :: EvTab (obj_lookup ekvs (js "u")) :: rest) /\
   (env_tab E (tab_count st) = true ->
    getBibTexFromPaperId JSON_parse E paperId st =
    (Ret tt, {| trace := trace st ++ [EvFetch (citeUrl_of paperId);
                                      EvTab (obj_lookup ekvs (js "u"));
                                      EvNotify title_success];
                fetch_count := S (fetch_count st);
                tab_count := S (tab_count st) |}))) /\
  (obj_lookup ekvs (js "l") <> JStr (js "BibTeX") ->
   tabs_opened (trace (snd (getBibTexFromPaperId JSON_parse E paperId st)))
   = tabs_opened (trace st) ++ [JStr (citeUrl_of paperId)]).
Proof.
  intros Hf Hp Hi. pose proof (bibtex_entry_url_first kvs ekvs es Hi) as Hb. split.
  - intros Hl. rewrite Hl in Hb. cbn [strict_eq_str] in Hb.
    rewrite (proj2 (jsstr_eqb_eq _ _) eq_refl) in Hb.
    assert (Hrun : forall b, env_tab E (tab_count st) = b ->
      getBibTexFromPaperId JSON_parse E paperId st =
      if b then
        (Ret tt, {| trace := trace st ++ [EvFetch (citeUrl_of paperId);
                                          EvTab (obj_lookup ekvs (js "u"));
                                          EvNotify title_success];
                    fetch_count := S (fetch_count st);
                    tab_count := S (tab_count st) |})
      else getBibTexFromPaperId JSON_parse E paperId st).
    { intros b Ht. destruct b; [|reflexivity].
      run_m. rewrite Hf. mcbn. rewrite Hp, Hb. mcbn. rewrite Ht. mcbn.
      app_norm. reflexivity. }
    split.
    + run_m. rewrite Hf. mcbn. rewrite Hp, Hb. mcbn.
      destruct (env_tab E (tab_count st)); mcbn.
      * app_norm. eexists. reflexivity.
      * destruct (bibtex_anchor_match body); mcbn;
          destruct (env_tab E (S (tab_count st))); mcbn;
          app_norm; eexists; reflexivity.
    + intros Ht. exact (Hrun true Ht).
  - intros Hl. apply (getBibTex_json_miss JSON_parse E paperId st body (JObj kvs) Hf Hp).
    rewrite Hb. destruct (obj_lookup ekvs (js "l")) eqn:El; try reflexivity.
    cbn [strict_eq_str]. destruct (jsstr_eqb s (js "BibTeX")) eqn:Es; [|reflexivity].
    apply jsstr_eqb_eq in Es. subst. contradiction.
Qed.

(** C2 (as stated, refuted): the entry labelled [BibTeX] is the second
    one; the worker does not open its URL [b] but the citation-endpoint
    URL. *)
Lemma c2_second_entry_ignored :
  json_parse c2_body = Some (JObj [(js "i", JArr c2_entries)]) /\
  nth_error c2_entries 1 = Some (JObj [(js "l", JStr (js "BibTeX")); (js "u", JStr (js "b"))]) /\
  tabs_opened (trace (snd (getBibTexFromPaperId json_parse (env_responding c2_body)
                             (js "ABC") init_state)))
  = [JStr (citeUrl_of (js "ABC"))].
Proof. vm_compute. repeat split. Qed.

Lemma getBibTex_first_entry_witness :
  let ekvs := [(js "l", JStr (js "BibTeX")); (js "u", JStr (js "b"))] in
  env_fetch (env_responding c2_body_first) 0%nat = FetchResp true c2_body_first /\
  json_parse c2_body_first = Some (JObj [(js "i", JArr [JObj ekvs])]) /\
  obj_lookup [(js "i", JArr [JObj ekvs])] (js "i") = JArr [JObj ekvs] /\
  getBibTexFromPaperId json_parse (env_responding c2_body_first) (js "ABC") init_state =
  (Ret tt, {| trace := [EvFetch (citeUrl_of (js "ABC")); EvTab (JStr (js "b"));
                        EvNotify title_success];
              fetch_count := 1%nat; tab_count := 1%nat |}).
Proof.
  intros ekvs.
  assert (Hf : env_fetch (env_responding c2_body_first) 0%nat = FetchResp true c2_body_first)
    by reflexivity.
  assert (Hp : json_parse c2_body_first = Some (JObj [(js "i", JArr [JObj ekvs])]))
    by (vm_compute; reflexivity).
  assert (Hi : obj_lookup [(js "i", JArr [JObj ekvs])] (js "i") = JArr [JObj ekvs])
    by reflexivity.
  split; [exact Hf|]. split; [exact Hp|]. split; [exact Hi|].
  exact (proj2 (proj1 (getBibTex_first_entry json_parse (env_responding c2_body_first)
                         (js "ABC") init_state c2_body_first _ ekvs [] Hf Hp Hi) eq_refl)
           eq_refl).
Defined.

(** ** Runs only append to the trace *)

Lemma extends_ret {A} (a : A) : extends (ret a).
Proof. intros st. exists []. rewrite app_nil_r. reflexivity. Qed.

Lemma extends_throw {A} : extends (@throw A).
Proof. intros st. exists []. rewrite app_nil_r. reflexivity. Qed.

Lemma extends_lift {A} (r : res A) : extends (lift r).
Proof. intros st. exists []. rewrite app_nil_r. reflexivity. Qed.

Lemma extends_lift_opt {A} (o : option A) : extends (lift_opt o).
Proof. destruct o; [apply extends_ret | apply extends_throw]. Qed.

Lemma extends_fetch E url : extends (fetch E url).
Proof. intros st. exists [EvFetch url]. unfold fetch. destruct (env_fetch E _); reflexivity. Qed.

Lemma extends_tabs E url : extends (tabs_create E url).
Proof. intros st. exists [EvTab url]. unfold tabs_create. destruct (env_tab E _); reflexivity. Qed.

Lemma extends_notify title : extends (notify title).
Proof. intros st. exists [EvNotify title]. reflexivity. Qed.

Lemma extends_bind {A B} (m : M A) (k : A -> M B) :
  extends m -> (forall a, extends (k a)) -> extends (mbind m k).
Proof.
  intros Hm Hk st. unfold mbind. destruct (Hm st) as [e1 He1].
  destruct (m st) as [[a|] st'] eqn:Em; cbn [snd] in *.
  - destruct (Hk a st') as [e2 He2]. exists (e1 ++ e2).
    rewrite He2, He1, app_assoc. reflexivity.
  - exists e1. exact He1.
Qed.

Lemma extends_try {A} (m h : M A) : extends m -> extends h -> extends (try_catch m h).
Proof.
  intros Hm Hh st. unfold try_catch. destruct (Hm st) as [e1 He1].
  destruct (m st) as [[a|] st'] eqn:Em; cbn [snd] in *.
  - exists e1. exact He1.
  - destruct (Hh st') as [e2 He2]. exists (e1 ++ e2).
    rewrite He2, He1, app_assoc. reflexivity.
Qed.

Ltac ext_tac :=
  repeat match goal with
  | |- extends (try_catch _ _) => apply extends_try
  | |- extends (mbind _ _) => apply extends_bind; [|intros ?]
  | |- extends (ret _) => apply extends_ret
  | |- extends throw => apply extends_throw
  | |- extends (lift _) => apply extends_lift
  | |- extends (lift_opt _) => apply extends_lift_opt
  | |- extends (fetch _ _) => apply extends_fetch
  | |- extends (tabs_create _ _) => apply extends_tabs
  | |- extends (notify _) => apply extends_notify
  | |- extends (match ?x with _ => _ end) => destruct x
  | |- extends (if ?b then _ else _) => destruct b
  end.

Lemma extends_parse_citation JSON_parse E citeText :
  extends (parse_citation JSON_parse E citeText).
Proof. unfold parse_citation. ext_tac. Qed.

Lemma extends_getBibTex JSON_parse E paperId :
  extends (getBibTexFromPaperId JSON_parse E paperId).
Proof.
  unfold getBibTexFromPaperId. cbv zeta. ext_tac; apply extends_parse_citation.
Qed.

Lemma extends_openScholarSearch E searchTerm : extends (openScholarSearch E searchTerm).
Proof. unfold openScholarSearch. ext_tac. Qed.

Lemma try_fetch_first {A} E url (k : bool * jsstr -> M A) (h : M A) st :
  (forall a, extends (k a)) -> extends h ->
  exists rest, trace (snd (try_catch (mbind (fetch E url) k) h st))
               = trace st ++ EvFetch url :: rest.
Proof.
  intros Hk Hh. unfold try_catch, mbind at 1, fetch at 1.
  destruct (env_fetch E (fetch_count st)) as [|ok body]; cbn [fst snd trace].
  - destruct (Hh {| trace := trace st ++ [EvFetch url]; fetch_count := S (fetch_count st);
                    tab_count := tab_count st |}) as [e He].
    destruct (h _) as [r st']; cbn [snd trace] in *.
    rewrite He, <- app_assoc. eexists. reflexivity.
  - set (st1 := {| trace := trace st ++ [EvFetch url]; fetch_count := S (fetch_count st);
                   tab_count := tab_count st |}).
    destruct (Hk (ok, body) st1) as [e1 He1].
    destruct (k (ok, body) st1) as [[a|] st2]; cbn [snd] in *.
    + rewrite He1. subst st1. cbn [trace]. rewrite <- app_assoc. eexists. reflexivity.
    + destruct (Hh st2) as [e2 He2].
      destruct (h st2) as [r st3]; cbn [snd] in *.
      rewrite He2, He1. subst st1. cbn [trace]. rewrite <- !app_assoc.
      eexists. reflexivity.
Qed.

(** [getBibTexFromPaperId] starts with its request to the citation endpoint. *)
Lemma getBibTex_first_fetch JSON_parse E paperId st :
  exists rest, trace (snd (getBibTexFromPaperId JSON_parse E paperId st))
               = trace st ++ EvFetch (citeUrl_of paperId) :: rest.
Proof.
  unfold getBibTexFromPaperId. cbv zeta. apply try_fetch_first.
  - intros [ok body]. ext_tac. apply extends_parse_citation.
  - apply extends_throw.
Qed.

(** ** Claims C1, C4 and C6: the search pipeline *)

Lemma get_prop_obj v name w :
  get_prop v name = Ret w -> w <> JUndef -> jsstr_eqb name (js "length") = false ->
  exists kvs, v = JObj kvs.
Proof.
  intros H Hw Hn. destruct v; cbn [get_prop] in H; try discriminate;
    try (rewrite Hn in H); try (injection H as <-; contradiction).
  eexists; reflexivity.
Qed.

(** The path [r[0].l.f.u] of lines 83-85, when it ends in a non-empty
    string, yields that string with its first [#f] removed. *)
Lemma search_data_id_path v e es l f s :
  get_prop v (js "r") = Ret (JArr (e :: es)) -> get_prop e (js "l") = Ret l ->
  get_prop l (js "f") = Ret f -> get_prop f (js "u") = Ret (JStr s) -> s <> [] ->
  search_data_id v = Ret (Some (replace_first_empty (js "#f") s)).
Proof.
  intros Hr Hl Hf Hu Hs.
  destruct (get_prop_obj f (js "u") (JStr s) Hu ltac:(discriminate) eq_refl) as [fk ->].
  destruct (get_prop_obj l (js "f") (JObj fk) Hf ltac:(discriminate) eq_refl) as [lk ->].
  unfold search_data_id. rewrite Hr. cbn [res_bind truthy get_prop get_first].
  replace (jsstr_eqb (js "length") (js "length")) with true by reflexivity.
  cbn [res_bind gt_zero List.length]. rewrite Nat2Z.inj_succ.
  replace (0 <? Z.succ (Z.of_nat (List.length es))) with true by (symmetry; apply Z.ltb_lt; lia).
  cbn [res_bind]. rewrite Hl. cbn [res_bind truthy]. rewrite Hf. cbn [res_bind truthy].
  rewrite Hu. cbn [res_bind truthy]. destruct s; [contradiction|]. reflexivity.
Qed.

Lemma extract_pat0 JSON_parse body g v id :
  pattern_match Pat0 body = Some g -> JSON_parse g = Some v ->
  search_data_id v = Ret (Some id) ->
  extractPaperIdFromResponse JSON_parse body = Some id.
Proof.
  intros Hm Hg Hs. unfold extractPaperIdFromResponse, extract_body, patterns.
  cbn [try_patterns]. rewrite Hm. cbn [res_bind pattern_step]. rewrite Hg, Hs.
  reflexivity.
Qed.

(** A prefix of the trace of the [try] block is a prefix of the whole. *)
Lemma try_catch_prefix {A} (m h : M A) st p :
  (exists rest, trace (snd (m st)) = p ++ rest) -> extends h ->
  exists rest, trace (snd (try_catch m h st)) = p ++ rest.
Proof.
  intros [rest Hm] Hh. unfold try_catch.
  destruct (m st) as [[a|] st'] eqn:Em; cbn [snd] in *.
  - exists rest. exact Hm.
  - destruct (Hh st') as [e He]. rewrite He, Hm, <- app_assoc. eexists. reflexivity.
Qed.

(** C4 (amended): when the search request succeeds and no identifier is
    extracted (or an empty one), the first tab [searchForBibTex] opens is
    the fallback URL built from [encodeURIComponent] of the cleaned keyword,
    in which the whitespace runs have already become [+]; when that tab
    opens, the run ends normally with the plain notification. *)
Theorem searchForBibTex_fallback_url JSON_parse E keyword st enc body :
  keyword <> [] ->
  encodeURIComponent (clean_keyword keyword) = Some enc ->
  env_fetch E (fetch_count st) = FetchResp true body ->
  (extractPaperIdFromResponse JSON_parse body = None \/
   extractPaperIdFromResponse JSON_parse body = Some []) ->
  (exists rest, trace (snd (searchForBibTex JSON_parse E keyword st))
     = trace st ++ EvFetch (searchUrl_of enc) :: EvTab (JStr (scholarUrl_of enc)) :: rest) /\
  (env_tab E (tab_count st) = true ->
   searchForBibTex JSON_parse E keyword st
   = (Ret tt, {| trace := trace st ++ [EvFetch (searchUrl_of enc);
                                       EvTab (JStr (scholarUrl_of enc)); EvNotify title_plain];
                 fetch_count := S (fetch_count st); tab_count := S (tab_count st) |})).
Proof.
  intros Hk Henc Hf Hx. destruct keyword as [|c k]; [contradiction|].
  unfold searchForBibTex. cbn [is_empty]. cbv iota zeta.
  run_m. rewrite Henc. mcbn. rewrite Hf. mcbn.
  destruct Hx as [Hx|Hx]; rewrite Hx; mcbn; rewrite ?Henc; mcbn;
  destruct (env_tab E (tab_count st)) eqn:Ht; mcbn;
    try destruct (env_tab E (S (tab_count st))); mcbn;
    (split; [eexists; app_norm; reflexivity
            | intros H; first [discriminate | app_norm; reflexivity]]).
Qed.

(** C4 (as stated, refuted): for [Attention Is All You Need] with no
    identifier found, the fallback URL opened has [%2B] between the words,
    not the [%20]-joined URL. *)
Lemma c4_fallback_url_plus_encoded :
  extractPaperIdFromResponse json_parse [] = None /\
  tabs_opened (trace (snd (searchForBibTex json_parse (env_responding [])
                             (js "Attention Is All You Need") init_state)))
  = [JStr (js "https://scholar.google.com/scholar?hl=en&q=Attention%2BIs%2BAll%2BYou%2BNeed")] /\
  js "https://scholar.google.com/scholar?hl=en&q=Attention%2BIs%2BAll%2BYou%2BNeed"
  <> js "https://scholar.google.com/scholar?hl=en&q=Attention%20Is%20All%20You%20Need".
Proof.
  split; [vm_compute; reflexivity|].
  split; [vm_compute; reflexivity|].
  intros H; vm_compute in H; discriminate H.
Qed.

Lemma searchForBibTex_fallback_url_witness :
  encodeURIComponent (clean_keyword (js "Attention Is All You Need"))
  = Some (js "Attention%2BIs%2BAll%2BYou%2BNeed") /\
  searchForBibTex json_parse (env_responding []) (js "Attention Is All You Need") init_state
  = (Ret tt, {| trace := [] ++ [EvFetch (searchUrl_of (js "Attention%2BIs%2BAll%2BYou%2BNeed"));
                               EvTab (JStr (scholarUrl_of (js "Attention%2BIs%2BAll%2BYou%2BNeed")));
                               EvNotify title_plain];
                fetch_count := 1; tab_count := 1 |}).
Proof.
  split; [vm_compute; reflexivity|].
  refine (proj2 (searchForBibTex_fallback_url json_parse (env_responding [])
    (js "Attention Is All You Need") init_state (js "Attention%2BIs%2BAll%2BYou%2BNeed") []
    _ _ eq_refl (or_introl _)) eq_refl).
  all: first [discriminate | vm_compute; reflexivity].
Defined.

(** C6 (amended): when the embedded assignment parses and its
    [r[0].l.f.u] is a non-empty string [s], the identifier is [s] with its
    first occurrence of [#f] removed (wherever it stands); when that
    identifier is non-empty, the second request of [searchForBibTex] is
    the citation-endpoint URL for it; when it is empty ([s] is [#f]), the
    search is the only request made. *)
Theorem embedded_json_id_requested JSON_parse E keyword st enc body g v e es l f s :
  pattern_match Pat0 body = Some g -> JSON_parse g = Some v ->
  get_prop v (js "r") = Ret (JArr (e :: es)) -> get_prop e (js "l") = Ret l ->
  get_prop l (js "f") = Ret f -> get_prop f (js "u") = Ret (JStr s) -> s <> [] ->
  extractPaperIdFromResponse JSON_parse body = Some (replace_first_empty (js "#f") s) /\
  (replace_first_empty (js "#f") s <> [] -> keyword <> [] ->
   encodeURIComponent (clean_keyword keyword) = Some enc ->
   env_fetch E (fetch_count st) = FetchResp true body ->
   exists rest, trace (snd (searchForBibTex JSON_parse E keyword st))
     = trace st ++ EvFetch (searchUrl_of enc)
         :: EvFetch (citeUrl_of (replace_first_empty (js "#f") s)) :: rest) /\
  (replace_first_empty (js "#f") s = [] -> keyword <> [] ->
   encodeURIComponent (clean_keyword keyword) = Some enc ->
   env_fetch E (fetch_count st) = FetchResp true body ->
   fetched (trace (snd (searchForBibTex JSON_parse E keyword st)))
   = fetched (trace st) ++ [searchUrl_of enc]).
Proof.
  intros Hm Hg Hr Hl Hf Hu Hs.
  assert (Hx : extractPaperIdFromResponse JSON_parse body
               = Some (replace_first_empty (js "#f") s)).
  { apply (extract_pat0 _ _ g v); [exact Hm | exact Hg |].
    exact (search_data_id_path v e es l f s Hr Hl Hf Hu Hs). }
  split; [exact Hx|]. split; cycle 1.
  { intros Hid Hk Henc Hfe. destruct keyword as [|c k]; [contradiction|].
    unfold searchForBibTex. cbn [is_empty]. cbv iota zeta.
    run_m. rewrite Henc. mcbn. rewrite Hfe. mcbn. rewrite Hx, Hid. mcbn. rewrite ?Henc. mcbn.
    destruct (env_tab E (tab_count st)); mcbn;
      try destruct (env_tab E (S (tab_count st))); mcbn; fetched_norm; reflexivity. }
  set (id := replace_first_empty (js "#f") s) in *.
  intros Hid Hk Henc Hfe. destruct keyword as [|c k]; [contradiction|].
  enough (Hp : exists rest, trace (snd (searchForBibTex JSON_parse E (c :: k) st))
    = (trace st ++ [EvFetch (searchUrl_of enc); EvFetch (citeUrl_of id)]) ++ rest).
  { destruct Hp as [rest Hp]. exists rest. rewrite Hp, <- app_assoc. reflexivity. }
  unfold searchForBibTex. cbn [is_empty]. cbv iota zeta.
  apply try_catch_prefix.
  2: { unfold showErrorNotification. ext_tac. apply extends_openScholarSearch. }
  rewrite Henc. unfold mbind at 1, lift_opt, ret. cbv beta iota.
  unfold mbind at 1, fetch at 1. rewrite Hfe. cbn [fst snd negb trace fetch_count tab_count].
  rewrite Hx. assert (He : is_empty id = false) by (destruct id; [contradiction | reflexivity]).
  rewrite He. cbn [negb].
  destruct (getBibTex_first_fetch JSON_parse E id
              {| trace := trace st ++ [EvFetch (searchUrl_of enc)];
                 fetch_count := S (fetch_count st); tab_count := tab_count st |})
    as [rest Hrest].
  rewrite Hrest. cbn [trace]. eexists. app_norm. reflexivity.
Qed.

(** C6 (as stated, refuted): [replace] removes the first [#f], not a
    trailing marker: [a#fb#f] gives [ab#f]; and [#f] alone gives the empty
    identifier, after which no citation-export request is made. *)
Lemma c6_marker_not_trailing :
  extractPaperIdFromResponse json_parse (c6_body (js "a#fb#f")) = Some (js "ab#f") /\
  extractPaperIdFromResponse json_parse (c6_body (js "#f")) = Some [] /\
  fetched (trace (snd (searchForBibTex json_parse (env_responding (c6_body (js "#f")))
                         (js "x") init_state)))
  = [searchUrl_of (js "x")].
Proof. vm_compute. repeat split. Qed.

Lemma embedded_json_id_requested_witness :
  (extractPaperIdFromResponse json_parse (c6_body (js "ABC#f")) = Some (js "ABC") /\
   exists rest,
     trace (snd (searchForBibTex json_parse (env_responding (c6_body (js "ABC#f")))
                   (js "x") init_state))
     = [] ++ EvFetch (searchUrl_of (js "x")) :: EvFetch (citeUrl_of (js "ABC")) :: rest) /\
  (extractPaperIdFromResponse json_parse (c6_body (js "#f")) = Some [] /\
   fetched (trace (snd (searchForBibTex json_parse (env_responding (c6_body (js "#f")))
                          (js "x") init_state)))
   = [] ++ [searchUrl_of (js "x")]).
Proof.
  pose proof (embedded_json_id_requested json_parse
    (env_responding (c6_body (js "ABC#f"))) (js "x") init_state (js "x")
    (c6_body (js "ABC#f")) (c6_json (js "ABC#f")) (c6_value (js "ABC#f"))
    (c6_e (js "ABC#f")) [] (c6_l (js "ABC#f")) (c6_f (js "ABC#f")) (js "ABC#f")
    ltac:(vm_compute; reflexivity) ltac:(vm_compute; reflexivity)
    ltac:(vm_compute; reflexivity) ltac:(vm_compute; reflexivity)
    ltac:(vm_compute; reflexivity) ltac:(vm_compute; reflexivity)
    ltac:(discriminate)) as [H1 [H2 _]].
  pose proof (embedded_json_id_requested json_parse
    (env_responding (c6_body (js "#f"))) (js "x") init_state (js "x")
    (c6_body (js "#f")) (c6_json (js "#f")) (c6_value (js "#f"))
    (c6_e (js "#f")) [] (c6_l (js "#f")) (c6_f (js "#f")) (js "#f")
    ltac:(vm_compute; reflexivity) ltac:(vm_compute; reflexivity)
    ltac:(vm_compute; reflexivity) ltac:(vm_compute; reflexivity)
    ltac:(vm_compute; reflexivity) ltac:(vm_compute; reflexivity)
    ltac:(discriminate)) as [G1 [_ G3]].
  split; split.
  - exact H1.
  - exact (H2 ltac:(discriminate) ltac:(discriminate) ltac:(vm_compute; reflexivity) eq_refl).
  - exact G1.
  - exact (G3 ltac:(vm_compute; reflexivity) ltac:(discriminate)
              ltac:(vm_compute; reflexivity) eq_refl).
Defined.

(** C1 (code defect): the [catch] of [searchForBibTex] calls
    [openScholarSearch] unguarded, and that function rethrows. With a lone
    surrogate as keyword, [encodeURIComponent] throws in the [try] and again
    in the handler; with the network down and tab creation failing, the
    handler's tab creation fails. Either way the run ends in an exception
    and the error notification is never shown. *)
Theorem searchForBibTex_fallback_failure_propagates :
  searchForBibTex json_parse (env_responding []) [55296] init_state = (Exc, init_state) /\
  searchForBibTex json_parse env_offline (js "Attention Is All You Need") init_state
  = (Exc, {| trace := [EvFetch (searchUrl_of (js "Attention%2BIs%2BAll%2BYou%2BNeed"));
                       EvTab (JStr (scholarUrl_of (js "Attention%2BIs%2BAll%2BYou%2BNeed")))];
             fetch_count := 1; tab_count := 1 |}).
Proof. split; vm_compute; reflexivity. Qed.

(** ** Further properties of background.js *)

Lemma trim_start_head s :
  trim_start s = [] \/ exists c r, trim_start s = c :: r /\ is_ws c = false.
Proof.
  induction s as [|c r IH]; [left; reflexivity|]. cbn [trim_start].
  destruct (is_ws c) eqn:Hc; [exact IH|]. right. eauto.
Qed.

Lemma trim_start_suffix s : exists p, s = p ++ trim_start s.
Proof.
  induction s as [|c r [p Hp]]; [exists []; reflexivity|]. cbn [trim_start].
  destruct (is_ws c); [exists (c :: p); cbn; rewrite <- Hp; reflexivity|].
  exists []; reflexivity.
Qed.

Lemma trim_start_nonws s : match hd_error s with Some c => negb (is_ws c) | None => true end = true ->
  trim_start s = s.
Proof.
  destruct s as [|c r]; [reflexivity|]. cbn. destruct (is_ws c); [discriminate|reflexivity].
Qed.

Lemma trim_edge_ws_free k : edge_ws_free (trim k) = true.
Proof.
  unfold edge_ws_free, trim. rewrite rev_involutive.
  destruct (trim_start_suffix (rev (trim_start k))) as [p Hp].
  destruct (trim_start_head (rev (trim_start k))) as [Hy | [c [r [Hy Hc]]]].
  - rewrite Hy. reflexivity.
  - rewrite Hy in *. cbn [hd_error]. rewrite Hc. cbn [negb andb].
    assert (Hx : trim_start k = rev (c :: r) ++ rev p).
    { rewrite <- rev_app_distr, <- Hp, rev_involutive. reflexivity. }
    destruct (rev (c :: r)) as [|b ys] eqn:Er.
    + apply (f_equal (@List.length Z)) in Er. rewrite length_rev in Er. discriminate.
    + destruct (trim_start_head k) as [Hk | [a [xs [Hk Ha]]]].
      * rewrite Hk in Hx. discriminate.
      * rewrite Hk in Hx. injection Hx as -> _. cbn. rewrite Ha. reflexivity.
Qed.

Lemma trim_of_edge_ws_free s : edge_ws_free s = true -> trim s = s.
Proof.
  unfold edge_ws_free, trim. intros H. apply andb_prop in H. destruct H as [H1 H2].
  rewrite (trim_start_nonws s H1), (trim_start_nonws (rev s) H2). apply rev_involutive.
Qed.

Lemma replace_ws_runs_snoc rep b s d :
  is_ws d = false -> replace_ws_runs rep b (s ++ [d]) = replace_ws_runs rep b s ++ [d].
Proof.
  intros Hd. revert b. induction s as [|c r IH]; intros b.
  - cbn. rewrite Hd. reflexivity.
  - cbn [app replace_ws_runs]. destruct (is_ws c); [destruct b|]; rewrite ?IH;
      rewrite ?app_assoc; reflexivity.
Qed.

Lemma replace_edge_ws_free rep s :
  edge_ws_free s = true -> edge_ws_free (replace_ws_runs rep false s) = true.
Proof.
  unfold edge_ws_free. intros H. apply andb_prop in H. destruct H as [H1 H2].
  destruct (rev s) as [|d t] eqn:Er.
  - apply (f_equal (@rev Z)) in Er. rewrite rev_involutive in Er. subst. reflexivity.
  - assert (Hs : s = rev t ++ [d]).
    { apply (f_equal (@rev Z)) in Er. rewrite rev_involutive in Er. exact Er. }
    cbn in H2. apply negb_true_iff in H2.
    rewrite Hs in *. rewrite replace_ws_runs_snoc by exact H2.
    rewrite rev_app_distr. cbn [rev app hd_error]. rewrite H2, andb_true_r.
    destruct (rev t) as [|c r]; cbn in H1 |- *; [rewrite H2; reflexivity|].
    apply negb_true_iff in H1. rewrite H1. cbn. rewrite H1. reflexivity.
Qed.

Lemma spaced_replace b s : spaced b (replace_ws_runs (js " ") b s) = true.
Proof.
  revert b. induction s as [|c r IH]; intros b; [reflexivity|].
  cbn [replace_ws_runs]. destruct (is_ws c) eqn:Hc; [destruct b|].
  - apply IH.
  - cbn. apply IH.
  - cbn [spaced]. rewrite Hc. apply IH.
Qed.

Lemma replace_spaced b s : spaced b s = true -> replace_ws_runs (js " ") b s = s.
Proof.
  revert b. induction s as [|c r IH]; intros b H; [reflexivity|].
  cbn [spaced] in H. cbn [replace_ws_runs].
  destruct (is_ws c) eqn:Hc.
  - apply andb_prop in H. destruct H as [H Hr]. apply andb_prop in H.
    destruct H as [Hb H32]. apply Z.eqb_eq in H32. subst c.
    destruct b; [discriminate|]. rewrite (IH true Hr). reflexivity.
  - rewrite (IH false H). reflexivity.
Qed.

Lemma replace_ws_runs_no_ws rep b s :
  Forall (fun c => is_ws c = false) s -> replace_ws_runs rep b s = s.
Proof.
  revert b. induction s as [|c r IH]; intros b H; [reflexivity|].
  inversion H; subst. cbn. rewrite H2, IH by assumption. reflexivity.
Qed.

Lemma hd_no_ws l : Forall (fun c => is_ws c = false) l ->
  match hd_error l with Some c => negb (is_ws c) | None => true end = true.
Proof. intros H. destruct H as [|x l Hx _]; [reflexivity|]. cbn. rewrite Hx. reflexivity. Qed.

Lemma trim_no_ws s : Forall (fun c => is_ws c = false) s -> trim s = s.
Proof.
  intros H. apply trim_of_edge_ws_free. unfold edge_ws_free.
  rewrite (hd_no_ws s H), (hd_no_ws (rev s) (Forall_rev H)). reflexivity.
Qed.

Lemma trim_start_all_ws s : trim_start s = [] <-> Forall (fun c => is_ws c = true) s.
Proof.
  induction s as [|c r IH]; [split; auto|]. cbn [trim_start].
  destruct (is_ws c) eqn:Hc.
  - rewrite IH. split; [intros; constructor; auto | intros H; inversion H; auto].
  - split; [discriminate | intros H; inversion H; congruence].
Qed.

Lemma trim_all_ws s : trim s = [] <-> Forall (fun c => is_ws c = true) s.
Proof.
  rewrite <- trim_start_all_ws. unfold trim. split.
  - intros H. destruct (trim_start_head s) as [Hs | [c [r [Hs Hc]]]]; [exact Hs|].
    exfalso. rewrite Hs in H.
    assert (Hw : Forall (fun x => is_ws x = true) (rev (c :: r))).
    { apply trim_start_all_ws. apply (f_equal (@rev Z)) in H.
      rewrite rev_involutive in H. exact H. }
    apply Forall_rev in Hw. rewrite rev_involutive in Hw. inversion Hw. congruence.
  - intros H. rewrite H. reflexivity.
Qed.

Lemma replace_ws_runs_nonws rep b s :
  Forall (fun c => is_ws c = false) rep ->
  Forall (fun c => is_ws c = false) (replace_ws_runs rep b s).
Proof.
  intros Hrep. revert b. induction s as [|c r IH]; intros b; [constructor|].
  cbn [replace_ws_runs]. destruct (is_ws c) eqn:Hc; [destruct b|].
  - apply IH.
  - apply Forall_app. auto.
  - constructor; auto.
Qed.

Lemma replace_ws_runs_nil rep s :
  rep <> [] -> replace_ws_runs rep false s = [] -> s = [].
Proof.
  intros Hrep. destruct s as [|c r]; [reflexivity|]. cbn.
  destruct (is_ws c); [|discriminate].
  destruct rep; [contradiction | discriminate].
Qed.

(** X2: the normalized keyword of [searchForBibTex] (lines 17 and 53)
    holds no white space at all (every run became [+]), normalizing it
    again changes nothing, and it is empty exactly when the keyword is
    white space only. *)
Theorem clean_keyword_normal k :
  Forall (fun c => is_ws c = false) (clean_keyword k) /\
  clean_keyword (clean_keyword k) = clean_keyword k /\
  (clean_keyword k = [] <-> Forall (fun c => is_ws c = true) k).
Proof.
  assert (Hnw : Forall (fun c => is_ws c = false) (clean_keyword k)).
  { apply replace_ws_runs_nonws. repeat constructor. }
  split; [exact Hnw|]. split.
  - unfold clean_keyword at 1. rewrite (trim_no_ws _ Hnw).
    apply replace_ws_runs_no_ws, Hnw.
  - rewrite <- trim_all_ws. unfold clean_keyword. split.
    + apply replace_ws_runs_nil. discriminate.
    + intros H. rewrite H. reflexivity.
Qed.

(** X3: the normalized keyword of the second [searchForBibTex] (line 298)
    has single spaces as its only white space, no white space at either
    end, is unchanged by normalizing it again, and is empty exactly when
    the keyword is white space only. *)
Theorem clean_keyword_space_normal k :
  spaced false (clean_keyword_space k) = true /\
  edge_ws_free (clean_keyword_space k) = true /\
  clean_keyword_space (clean_keyword_space k) = clean_keyword_space k /\
  (clean_keyword_space k = [] <-> Forall (fun c => is_ws c = true) k).
Proof.
  assert (Hs : spaced false (clean_keyword_space k) = true) by apply spaced_replace.
  assert (He : edge_ws_free (clean_keyword_space k) = true)
    by (apply replace_edge_ws_free, trim_edge_ws_free).
  split; [exact Hs|]. split; [exact He|]. split.
  - unfold clean_keyword_space at 1. rewrite (trim_of_edge_ws_free _ He).
    apply replace_spaced, Hs.
  - rewrite <- trim_all_ws. unfold clean_keyword_space. split.
    + apply replace_ws_runs_nil. discriminate.
    + intros H. rewrite H. reflexivity.
Qed.


Lemma hex_digit_unreserved d : 0 <= d < 16 -> uri_unreserved (hex_digit d) = true.
Proof.
  intros Hd. unfold hex_digit, uri_unreserved, in_range.
  destruct (Z.ltb_spec d 10).
  - replace (48 <=? 48 + d) with true by (symmetry; apply Z.leb_le; lia).
    replace (48 + d <=? 57) with true by (symmetry; apply Z.leb_le; lia).
    rewrite !orb_true_r. reflexivity.
  - replace (65 <=? 55 + d) with true by (symmetry; apply Z.leb_le; lia).
    replace (55 + d <=? 90) with true by (symmetry; apply Z.leb_le; lia).
    reflexivity.
Qed.

Lemma pct_octets_safe cp : 0 <= cp <= 1114111 -> Forall url_safe (pct_octets cp).
Proof.
  intros Hcp. unfold pct_octets.
  assert (Hb : Forall (fun b => 0 <= b < 256) (utf8_octets cp)).
  { unfold utf8_octets.
    destruct (Z.ltb_spec cp 128); [repeat constructor; lia|].
    destruct (Z.ltb_spec cp 2048); [repeat constructor; dlia|].
    destruct (Z.ltb_spec cp 65536); repeat constructor; dlia. }
  induction Hb as [|b bs Hb _ IH]; [constructor|]. cbn [flat_map pct app].
  constructor; [right; reflexivity|].
  constructor; [left; apply hex_digit_unreserved; dlia|].
  constructor; [left; apply hex_digit_unreserved; dlia|]. exact IH.
Qed.

Lemma encode_safe_len n : forall s e,
  (List.length s <= n)%nat -> units_ok s -> encodeURIComponent s = Some e -> Forall url_safe e.
Proof.
  induction n as [|n IH]; intros s e Hlen Hok He.
  - destruct s; [injection He as <-; constructor | cbn in Hlen; lia].
  - destruct s as [|c r]; [injection He as <-; constructor|]. cbn in Hlen.
    inversion Hok as [|? ? Hc Hr]; subst. cbn [encodeURIComponent] in He.
    destruct (uri_unreserved c) eqn:Hu.
    + destruct (encodeURIComponent r) eqn:Er; [|discriminate]. injection He as <-.
      constructor; [left; exact Hu | apply (IH r); auto; lia].
    + destruct (is_high_surrogate c) eqn:Hh.
      * destruct r as [|d r']; [discriminate|]. destruct (is_low_surrogate d) eqn:Hl; [|discriminate].
        inversion Hr as [|? ? Hd Hr']; subst.
        destruct (encodeURIComponent r') eqn:Er; [|discriminate]. injection He as <-.
        apply Forall_app. split; [|apply (IH r'); auto; cbn in Hlen; lia].
        apply pct_octets_safe. apply (proj1 (surrogate_bounds c)) in Hh.
        apply (proj2 (surrogate_bounds d)) in Hl. unfold pair_code_point. lia.
      * destruct (is_low_surrogate c); [discriminate|].
        destruct (encodeURIComponent r) eqn:Er; [|discriminate]. injection He as <-.
        apply Forall_app. split; [apply pct_octets_safe; lia | apply (IH r); auto; lia].
Qed.

(** X1: [openScholarSearch] throws without opening anything when the term
    has an unpaired surrogate.  Otherwise it opens exactly one tab, at the
    search URL whose query [e] decodes back to the term and consists of
    unreserved characters and [%] only; it throws when that tab fails. *)
Theorem openScholarSearch_outcome E term st :
  (well_formed_utf16 term = false -> openScholarSearch E term st = (Exc, st)) /\
  (units_ok term -> well_formed_utf16 term = true ->
   exists e, encodeURIComponent term = Some e /\
     decodeURIComponent e = Some term /\ Forall url_safe e /\
     openScholarSearch E term st
     = (if env_tab E (tab_count st) then Ret tt else Exc,
        {| trace := trace st ++ [EvTab (JStr (scholarUrl_of e))];
           fetch_count := fetch_count st; tab_count := S (tab_count st) |})).
Proof.
  split.
  - intros Hw. apply encode_none_iff in Hw. unfold openScholarSearch, try_catch, mbind, lift_opt.
    rewrite Hw. reflexivity.
  - intros Hok Hw. destruct (encode_total_len (List.length term) term (le_n _) Hw) as [e He].
    exists e. split; [exact He|]. split.
    + exact (encode_roundtrip_len (List.length term) term e (le_n _) Hok He).
    + split; [exact (encode_safe_len (List.length term) term e (le_n _) Hok He)|].
      unfold openScholarSearch, try_catch, mbind, lift_opt, ret, tabs_create. rewrite He.
      destruct (env_tab E (tab_count st)); reflexivity.
Qed.

Lemma openScholarSearch_outcome_witness :
  let t := js "Attention Is All You Need" ++ [55357; 56832] in
  units_ok t /\ well_formed_utf16 t = true /\
  exists e, encodeURIComponent t = Some e /\
     decodeURIComponent e = Some t /\ Forall url_safe e /\
     openScholarSearch (env_responding []) t init_state
     = (Ret tt, {| trace := [] ++ [EvTab (JStr (scholarUrl_of e))];
                   fetch_count := 0; tab_count := 1 |}).
Proof.
  intros t. assert (Hk : units_ok t) by (unfold units_ok; cbn; repeat (apply Forall_cons; [lia|]); apply Forall_nil).
  assert (Hw : well_formed_utf16 t = true) by (vm_compute; reflexivity).
  split; [exact Hk|]. split; [exact Hw|].
  exact (proj2 (openScholarSearch_outcome (env_responding []) t init_state) Hk Hw).
Defined.

(** X4: the second [searchForBibTex] never rejects and never fetches.
    An empty keyword does nothing; a keyword whose normalized form cannot
    be encoded shows the error notification only; otherwise it opens the
    search URL of the space-normalized keyword and shows the plain
    notification, or the error notification when that tab fails. *)
Theorem searchForBibTex_simple_outcome E keyword st :
  (keyword = [] -> searchForBibTex_simple E keyword st = (Ret tt, st)) /\
  (keyword <> [] -> encodeURIComponent (clean_keyword_space keyword) = None ->
   searchForBibTex_simple E keyword st
   = (Ret tt, {| trace := trace st ++ [EvNotify title_error];
                 fetch_count := fetch_count st; tab_count := tab_count st |})) /\
  (forall e, keyword <> [] -> encodeURIComponent (clean_keyword_space keyword) = Some e ->
   searchForBibTex_simple E keyword st
   = (Ret tt, {| trace := trace st ++ [EvTab (JStr (scholarUrl_of e));
                   EvNotify (if env_tab E (tab_count st) then title_plain else title_error)];
                 fetch_count := fetch_count st; tab_count := S (tab_count st) |})).
Proof.
  split; [intros ->; reflexivity|]. split.
  - intros Hk He. destruct keyword as [|c k]; [contradiction|].
    unfold searchForBibTex_simple, showErrorNotification, openScholarSearch, try_catch,
      mbind, lift_opt, notify. cbn [is_empty]. cbv zeta. rewrite He. reflexivity.
  - intros e Hk He. destruct keyword as [|c k]; [contradiction|].
    unfold searchForBibTex_simple, showErrorNotification, openScholarSearch, try_catch,
      mbind, lift_opt, ret, tabs_create, notify. cbn [is_empty]. cbv zeta. rewrite He.
    destruct (env_tab E (tab_count st)); cbn; rewrite <- app_assoc; reflexivity.
Qed.

(** X5: a click on the toolbar icon never rejects, makes no request,
    opens the Scholar home page, and shows the plain notification only
    when that tab opened. *)
Theorem onActionClicked_outcome E st :
  onActionClicked E st
  = (Ret tt, {| trace := trace st ++ EvTab (JStr scholar_home)
                          :: (if env_tab E (tab_count st) then [EvNotify title_plain] else []);
                fetch_count := fetch_count st; tab_count := S (tab_count st) |}).
Proof.
  unfold onActionClicked, try_catch, mbind, tabs_create, notify, ret.
  destruct (env_tab E (tab_count st)); cbn; rewrite ?app_nil_r, <- ?app_assoc; reflexivity.
Qed.

(** X7: [getCurrentTabUrl] never returns a falsy value other than [null]
    (no [undefined], no empty string); for a first tab with a string
    [url], it returns that URL, or [null] when it is empty. *)
Theorem getCurrentTabUrl_result q :
  (getCurrentTabUrl q = JNull \/ truthy (getCurrentTabUrl q) = true) /\
  forall kvs rest u, q = QueryTabs (JObj kvs :: rest) -> obj_lookup kvs (js "url") = JStr u ->
    getCurrentTabUrl q = if is_empty u then JNull else JStr u.
Proof.
  split.
  - destruct q as [|tabs]; [left; reflexivity|]. cbn [getCurrentTabUrl].
    destruct (match tabs with t :: _ => t | [] => JUndef end) as [| |b|m e|s|l|kvs];
      cbn [get_prop]; try (left; reflexivity);
      repeat match goal with
      | |- context [if ?b then _ else _] => destruct b eqn:?
      end; auto.
  - intros kvs rest u -> Hu. cbn [getCurrentTabUrl get_prop]. rewrite Hu. cbn [truthy]. destruct (is_empty u); reflexivity.
Qed.

(** X8: the keyword shown in the second notification is at most 53 code
    units long: the keyword itself up to 50 units, else its first 50 units
    followed by [...]. *)
Theorem searching_label_bound k :
  (List.length (searching_label k) <= 53)%nat /\
  ((List.length k <= 50)%nat -> searching_label k = k) /\
  ((50 < List.length k)%nat -> searching_label k = firstn 50 k ++ js "...").
Proof.
  unfold searching_label. destruct (Nat.ltb_spec 50 (List.length k)).
  - split; [rewrite length_app, length_firstn; change (List.length (js "...")) with 3%nat; lia|].
    split; [lia|auto].
  - split; [lia|]. split; [auto | lia].
Qed.

(** X9: when the search request throws or is not ok, [searchForBibTex]
    makes no other request, opens the fallback search URL once and, if that
    tab opened, shows the error notification and resolves; otherwise it
    rejects. *)
Theorem searchForBibTex_search_failure JSON_parse E keyword st enc :
  keyword <> [] -> encodeURIComponent (clean_keyword keyword) = Some enc ->
  (env_fetch E (fetch_count st) = FetchThrow \/
   exists body, env_fetch E (fetch_count st) = FetchResp false body) ->
  searchForBibTex JSON_parse E keyword st
  = (if env_tab E (tab_count st) then Ret tt else Exc,
     {| trace := trace st ++ [EvFetch (searchUrl_of enc); EvTab (JStr (scholarUrl_of enc))]
                 ++ (if env_tab E (tab_count st) then [EvNotify title_error] else []);
        fetch_count := S (fetch_count st); tab_count := S (tab_count st) |}).
Proof.
  intros Hk Henc Hf. destruct keyword as [|c k]; [contradiction|].
  unfold searchForBibTex. cbn [is_empty]. cbv iota zeta.
  run_m. rewrite Henc. mcbn.
  destruct Hf as [Hf | [body Hf]]; rewrite Hf; mcbn; rewrite ?Henc; mcbn;
    destruct (env_tab E (tab_count st)); mcbn; app_norm; reflexivity.
Qed.

(** X10: when an identifier is found but the citation request throws or
    is not ok, [getBibTexFromPaperId] rethrows and [searchForBibTex] falls
    back: after the two requests it opens the fallback search URL and shows
    the error notification if that tab opened. *)
Theorem searchForBibTex_cite_failure JSON_parse E keyword st enc body id :
  keyword <> [] -> encodeURIComponent (clean_keyword keyword) = Some enc ->
  env_fetch E (fetch_count st) = FetchResp true body ->
  extractPaperIdFromResponse JSON_parse body = Some id -> id <> [] ->
  (env_fetch E (S (fetch_count st)) = FetchThrow \/
   exists b, env_fetch E (S (fetch_count st)) = FetchResp false b) ->
  searchForBibTex JSON_parse E keyword st
  = (if env_tab E (tab_count st) then Ret tt else Exc,
     {| trace := trace st ++ [EvFetch (searchUrl_of enc); EvFetch (citeUrl_of id);
                              EvTab (JStr (scholarUrl_of enc))]
                 ++ (if env_tab E (tab_count st) then [EvNotify title_error] else []);
        fetch_count := S (S (fetch_count st)); tab_count := S (tab_count st) |}).
Proof.
  intros Hk Henc Hf Hx Hid Hc. destruct keyword as [|c k]; [contradiction|].
  unfold searchForBibTex. cbn [is_empty]. cbv iota zeta.
  run_m. rewrite Henc. mcbn. rewrite Hf. mcbn. rewrite Hx.
  destruct id as [|i0 id']; [contradiction|]. mcbn.
  destruct Hc as [Hc | [b Hc]]; rewrite Hc; mcbn; rewrite ?Henc; mcbn;
    destruct (env_tab E (tab_count st)); mcbn; app_norm; reflexivity.
Qed.

(** X11: when the BibTeX entry of a JSON response is found but its tab
    fails, the failure is caught by the handler meant for [JSON.parse]: the
    anchor scan runs and, when it finds nothing, the citation-endpoint URL
    is opened as a second tab. *)
Theorem getBibTex_failed_tab_falls_back JSON_parse E paperId st body v u :
  env_fetch E (fetch_count st) = FetchResp true body ->
  JSON_parse body = Some v -> bibtex_entry_url v = Ret (Some u) ->
  env_tab E (tab_count st) = false -> bibtex_anchor_match body = None ->
  getBibTexFromPaperId JSON_parse E paperId st
  = (if env_tab E (S (tab_count st)) then Ret tt else Exc,
     {| trace := trace st ++ [EvFetch (citeUrl_of paperId); EvTab u;
                              EvTab (JStr (citeUrl_of paperId))]
                 ++ (if env_tab E (S (tab_count st)) then [EvNotify title_plain] else []);
        fetch_count := S (fetch_count st); tab_count := S (S (tab_count st)) |}).
Proof.
  intros Hf Hp Hb Ht Ha. run_m. rewrite Hf. mcbn. rewrite Hp. mcbn. rewrite Hb. mcbn.
  rewrite Ht. mcbn. rewrite Ha. mcbn.
  destruct (env_tab E (S (tab_count st))); mcbn; app_norm; reflexivity.
Qed.

Ltac mcbn2 :=
  cbn -[app js bibtex_anchor_match cite_link_match title_success title_plain
        title_error citeUrl_of scholarUrl_of searchUrl_of clean_keyword
        encodeURIComponent extractPaperIdFromResponse bibtex_entry_url
        getBibTexFromPaperId].

Ltac split_env :=
  match goal with
  | |- context [env_fetch ?E0 ?n] => destruct (env_fetch E0 n)
  | |- context [env_tab ?E0 ?n] => destruct (env_tab E0 n)
  | |- context [bibtex_entry_url ?v] => destruct (bibtex_entry_url v) as [[?|]|]
  | |- context [bibtex_anchor_match ?t] => destruct (bibtex_anchor_match t)
  | |- context [encodeURIComponent ?t] => destruct (encodeURIComponent t)
  | |- context [extractPaperIdFromResponse ?J ?t] =>
      destruct (extractPaperIdFromResponse J t) as [[|? ?]|]
  | |- context [if ?b then _ else _] => destruct b
  end.

Lemma getBibTex_costs JSON_parse E paperId : costs (getBibTexFromPaperId JSON_parse E paperId) 1 2.
Proof.
  intros st. run_m.
  repeat (first [split_env | destruct (JSON_parse _)]; mcbn).
  all: lia.
Qed.

Lemma searchForBibTex_costs_le JSON_parse E keyword : costs (searchForBibTex JSON_parse E keyword) 2 3.
Proof.
  intros st. unfold searchForBibTex. destruct (is_empty keyword); [cbn; lia|].
  unfold openScholarSearch, showErrorNotification, try_catch, mbind, fetch, tabs_create,
    notify, lift, lift_opt, ret, throw. mcbn2.
  repeat (first [ match goal with
                  | |- context [getBibTexFromPaperId ?J ?E0 ?i ?s] =>
                      destruct (getBibTex_costs J E0 i s) as [?H ?H];
                      destruct (getBibTexFromPaperId J E0 i s) as [[?|] ?]; cbn [fst snd] in *
                  end
                | split_env ]; mcbn2).
  all: cbn in *; lia.
Qed.


(** X13: when the embedded JSON parses and [r[0].l.f.u] is truthy but not
    a string, calling [replace] on it throws and extraction yields [null],
    without trying the later patterns. *)
Theorem extract_nonstring_url_null JSON_parse body g v e es l f u :
  pattern_match Pat0 body = Some g -> JSON_parse g = Some v ->
  get_prop v (js "r") = Ret (JArr (e :: es)) -> get_prop e (js "l") = Ret l ->
  get_prop l (js "f") = Ret f -> get_prop f (js "u") = Ret u ->
  truthy u = true -> (forall s, u <> JStr s) ->
  extractPaperIdFromResponse JSON_parse body = None.
Proof.
  intros Hm Hg Hr Hl Hf Hu Ht Hs.
  assert (HuU : u <> JUndef) by (intros ->; discriminate).
  destruct (get_prop_obj f (js "u") u Hu HuU eq_refl) as [fk ->].
  destruct (get_prop_obj l (js "f") (JObj fk) Hf ltac:(discriminate) eq_refl) as [lk ->].
  assert (Hsd : search_data_id v = Exc).
  { unfold search_data_id. rewrite Hr. cbn [res_bind truthy get_prop get_first].
    replace (jsstr_eqb (js "length") (js "length")) with true by reflexivity.
    cbn [res_bind gt_zero List.length]. rewrite Nat2Z.inj_succ.
    replace (0 <? Z.succ (Z.of_nat (List.length es))) with true by (symmetry; apply Z.ltb_lt; lia).
    cbn [res_bind]. rewrite Hl. cbn [res_bind truthy]. rewrite Hf. cbn [res_bind truthy].
    rewrite Hu. cbn [res_bind]. rewrite Ht.
    destruct u; try reflexivity. exfalso. exact (Hs s eq_refl). }
  rewrite extract_cases, Hm, Hg, Hsd. reflexivity.
Qed.

(** X14: when the embedded JSON parses but its [r] is falsy or an empty
    array, extraction goes on: the identifier is that of the [data-href]
    info link if there is one, else that of the first citation-info link. *)
Theorem extract_unresolved_path_falls_through JSON_parse body g v r :
  pattern_match Pat0 body = Some g -> JSON_parse g = Some v ->
  get_prop v (js "r") = Ret r -> (truthy r = false \/ r = JArr []) ->
  extractPaperIdFromResponse JSON_parse body
  = match pattern_match Pat3 body with
    | Some id => Some id
    | None => cite_link_match body
    end.
Proof.
  intros Hm Hg Hr Hc.
  assert (Hsd : search_data_id v = Ret None).
  { unfold search_data_id. rewrite Hr. cbn [res_bind].
    destruct Hc as [Hc | ->]; [rewrite Hc; reflexivity | reflexivity]. }
  rewrite extract_cases, Hm, Hg, Hsd. reflexivity.
Qed.

Lemma span_not_stop stop s run rest :
  span_not stop s = (run, rest) -> ~ In stop run.
Proof.
  revert run rest. induction s as [|c r IH]; intros run rest H; cbn in H.
  - injection H as <- _. intros [].
  - destruct (Z.eqb_spec c stop); [injection H as <- _; intros []|].
    destruct (span_not stop r) as [run' rest'] eqn:E.
    injection H as <- _. intros [Hc | Hin]; [congruence | exact (IH _ _ eq_refl Hin)].
Qed.

Lemma info_id_after_shape prefix s id :
  info_id_after prefix s = Some id -> id <> [] /\ ~ In 58 id.
Proof.
  unfold info_id_after, opt_bind. destruct (strip_prefix prefix s) as [s1|]; [|discriminate].
  destruct (span_not 58 s1) as [run rest] eqn:Hs.
  destruct run as [|c r]; [discriminate|].
  destruct (strip_prefix (js ":scholar.google.com") rest); [|discriminate].
  intros H. injection H as <-. split; [discriminate|]. exact (span_not_stop _ _ _ _ Hs).
Qed.

Lemma first_match_prop (at_ : jsstr -> option jsstr) (P : jsstr -> Prop) s id :
  (forall t x, at_ t = Some x -> P x) -> first_match at_ s = Some id -> P id.
Proof.
  intros Hat. induction s as [|c r IH]; cbn; destruct (at_ _) eqn:E;
    intros H; try (injection H as <-; exact (Hat _ _ E)); auto; discriminate.
Qed.

(** X15: without an embedded JSON assignment, every identifier extracted
    is non-empty and holds no colon. *)
Theorem extract_link_id_shape JSON_parse body id :
  pattern_match Pat0 body = None ->
  extractPaperIdFromResponse JSON_parse body = Some id ->
  id <> [] /\ ~ In 58 id.
Proof.
  intros Hm. rewrite extract_cases, Hm.
  destruct (pattern_match Pat3 body) as [x|] eqn:H3.
  - intros H. injection H as <-. unfold pattern_match in H3.
    apply (first_match_prop pat3_at (fun x => x <> [] /\ ~ In 58 x) body); [|exact H3].
    intros t y. apply info_id_after_shape.
  - apply (first_match_prop cite_at (fun x => x <> [] /\ ~ In 58 x) body).
    intros t y. apply info_id_after_shape.
Qed.

(** X12: a run of [searchForBibTex] makes at most two requests and at most
    three tab creations, whatever the network, the tabs and the responses;
    three tabs do occur (BibTeX tab, citation page and fallback all
    failing). *)
Theorem searchForBibTex_request_bounds :
  (forall JSON_parse E keyword st,
     (fetch_count (snd (searchForBibTex JSON_parse E keyword st)) <= fetch_count st + 2)%nat /\
     (tab_count (snd (searchForBibTex JSON_parse E keyword st)) <= tab_count st + 3)%nat) /\
  fetched (trace (snd (searchForBibTex json_parse env_three_tabs (js "x") init_state)))
  = [searchUrl_of (js "x"); citeUrl_of (js "ABC")] /\
  tabs_opened (trace (snd (searchForBibTex json_parse env_three_tabs (js "x") init_state)))
  = [JStr (js "b"); JStr (citeUrl_of (js "ABC")); JStr (scholarUrl_of (js "x"))].
Proof.
  split; [intros; apply searchForBibTex_costs_le|]. split; vm_compute; reflexivity.
Qed.

Lemma searchForBibTex_search_failure_witness :
  searchForBibTex json_parse env_net_down (js "deep learning") init_state
  = (Ret tt, {| trace := [] ++ [EvFetch (searchUrl_of (js "deep%2Blearning"));
                                EvTab (JStr (scholarUrl_of (js "deep%2Blearning")))]
                         ++ [EvNotify title_error];
                fetch_count := 1; tab_count := 1 |}).
Proof.
  exact (searchForBibTex_search_failure json_parse env_net_down (js "deep learning")
    init_state (js "deep%2Blearning") ltac:(discriminate) ltac:(vm_compute; reflexivity)
    (or_introl eq_refl)).
Defined.

Lemma searchForBibTex_cite_failure_witness :
  extractPaperIdFromResponse json_parse info_body = Some (js "ABC") /\
  searchForBibTex json_parse (env_cite_down info_body) (js "x") init_state
  = (Ret tt, {| trace := [] ++ [EvFetch (searchUrl_of (js "x")); EvFetch (citeUrl_of (js "ABC"));
                                EvTab (JStr (scholarUrl_of (js "x")))]
                         ++ [EvNotify title_error];
                fetch_count := 2; tab_count := 1 |}).
Proof.
  assert (Hx : extractPaperIdFromResponse json_parse info_body = Some (js "ABC"))
    by (vm_compute; reflexivity).
  split; [exact Hx|].
  exact (searchForBibTex_cite_failure json_parse (env_cite_down info_body) (js "x")
    init_state (js "x") info_body (js "ABC") ltac:(discriminate)
    ltac:(vm_compute; reflexivity) eq_refl Hx ltac:(discriminate) (or_introl eq_refl)).
Defined.

Lemma getBibTex_failed_tab_falls_back_witness :
  getBibTexFromPaperId json_parse (env_first_tab_fails c2_body_first) (js "ABC") init_state
  = (Ret tt, {| trace := [] ++ [EvFetch (citeUrl_of (js "ABC")); EvTab (JStr (js "b"));
                                EvTab (JStr (citeUrl_of (js "ABC")))]
                         ++ [EvNotify title_plain];
                fetch_count := 1; tab_count := 2 |}).
Proof.
  refine (getBibTex_failed_tab_falls_back json_parse (env_first_tab_fails c2_body_first)
    (js "ABC") init_state c2_body_first _ (JStr (js "b")) eq_refl _ _ eq_refl _).
  3: vm_compute; reflexivity.
  - vm_compute; reflexivity.
  - vm_compute; reflexivity.
Defined.

Lemma extract_nonstring_url_null_witness :
  pattern_match Pat3 num_url_body = Some (js "ABC") /\
  extractPaperIdFromResponse json_parse num_url_body = None.
Proof.
  split; [vm_compute; reflexivity|].
  refine (extract_nonstring_url_null json_parse num_url_body _ num_url_value num_url_e []
    num_url_l num_url_f (JNum 5 0) _ _ eq_refl eq_refl eq_refl eq_refl eq_refl _).
  - vm_compute; reflexivity.
  - vm_compute; reflexivity.
  - discriminate.
Defined.

Lemma extract_unresolved_path_falls_through_witness :
  extractPaperIdFromResponse json_parse empty_r_body = Some (js "XYZ").
Proof.
  rewrite (extract_unresolved_path_falls_through json_parse empty_r_body
    (js "{" ++ quote ++ js "r" ++ quote ++ js ":[]}") (JObj [(js "r", JArr [])]) (JArr [])
    ltac:(vm_compute; reflexivity) ltac:(vm_compute; reflexivity) eq_refl (or_intror eq_refl)).
  vm_compute. reflexivity.
Defined.

Lemma extract_link_id_shape_witness :
  extractPaperIdFromResponse json_parse info_body = Some (js "ABC") /\
  js "ABC" <> [] /\ ~ In 58 (js "ABC").
Proof.
  assert (Hx : extractPaperIdFromResponse json_parse info_body = Some (js "ABC"))
    by (vm_compute; reflexivity).
  split; [exact Hx|].
  exact (extract_link_id_shape json_parse info_body (js "ABC") ltac:(vm_compute; reflexivity) Hx).
Defined.

Lemma searchForBibTex_simple_outcome_witness :
  searchForBibTex_simple (env_responding []) (js " Attention Is  All You Need ") init_state
  = (Ret tt, {| trace := [] ++ [EvTab (JStr (scholarUrl_of
                                  (js "Attention%20Is%20All%20You%20Need")));
                                EvNotify title_plain];
                fetch_count := 0; tab_count := 1 |}).
Proof.
  exact (proj2 (proj2 (searchForBibTex_simple_outcome (env_responding [])
    (js " Attention Is  All You Need ") init_state))
    (js "Attention%20Is%20All%20You%20Need") ltac:(discriminate) ltac:(vm_compute; reflexivity)).
Defined.
